(** * Python.ahk: window queries, window handles and scoped settings

    A shallow embedding of [ahkpy/settings.py] and [ahkpy/window.py].

    Python objects are embedded as follows.
    - Values that cross the command channel (arguments and results of
      [ahk_call]), settings values and timeouts are dynamic: [PyVal].
    - The dataclass [Windows] is frozen, so its instances are plain values;
      each filterable field is [UNSET], [None] or a value of the annotated
      type ([tri]).
    - [Settings] instances are mutable and shared by reference, so they live
      in a store of objects; the context variable holds a reference.
    - A Python function that talks to AutoHotkey, reads the settings or may
      raise is a function in the monad [M]: it threads the state and returns
      either a value or the exception raised.
    - [global_ahk_lock] is a reentrant lock; one thread of execution is
      modelled, for which acquiring and releasing it have no effect. *)

From stdpp Require Import base list strings.
From Stdlib Require Import ZArith Bool Ascii.
From Stdlib Require Import Floats.PrimFloat Floats.SpecFloat Floats.FloatOps.
From Stdlib Require Import Floats.FloatAxioms.
From Stdlib Require Import DecimalString.

Set Warnings "-inexact-float,-register-all".
Local Open Scope string_scope.
Local Open Scope Z_scope.
Local Open Scope list_scope.

(** ** Python values *)

Module py.

(** The values the modelled code passes around.  [VUnset] is the module
    level sentinel [UNSET = UnsetType()] of window.py. *)
Inductive PyVal :=
| VUnset
| VNone
| VBool (b : bool)
| VInt (z : Z)
| VFloat (f : float)
| VStr (s : string)
| VDict (items : list (string * PyVal)).

(** Exceptions.  The f-string messages of the source embed [repr] of the
    offending value; the value itself is kept instead of its rendering (a
    message without one has [VNone] in its place). *)
Inductive Exn :=
| ValueError (culprit : PyVal) (what : string)
| TypeError (what : string)
| OverflowError (what : string)
| AttributeError (what : string)
| KeyError (key : string)
| NotImplementedError
| RecursionError
| Error (message : PyVal)
| NoSuchObject (ref : nat)
| OutsideModel (what : string).
(* [Error] is ahkpy.exceptions.Error (exceptions.py is not under src/),
   raised by [ahk_call]; [message] is the attribute the handlers inspect.  The last two exist in the model only:
   [NoSuchObject] is a reference outside the store, which Python cannot
   produce; [OutsideModel] marks a value of a type the embedding has no
   place for (a window id that is not an int). *)

Inductive Outcome (A : Type) :=
| Ok (a : A)
| Raise (e : Exn).
Arguments Ok {A} a.
Arguments Raise {A} e.

(** State and exception monad: the state is threaded through a raise. *)
Definition M (St A : Type) : Type := St -> Outcome A * St.

Definition ret {St A} (a : A) : M St A := fun s => (Ok a, s).

Definition raise {St A} (e : Exn) : M St A := fun s => (Raise e, s).

Definition bind {St A B} (m : M St A) (k : A -> M St B) : M St B :=
  fun s => match m s with
           | (Ok a, s') => k a s'
           | (Raise e, s') => (Raise e, s')
           end.

(** [try: m  except Exception as e: h e]. *)
Definition try_except {St A} (m : M St A) (h : Exn -> M St A) : M St A :=
  fun s => match m s with
           | (Ok a, s') => (Ok a, s')
           | (Raise e, s') => h e s'
           end.

(** [try: m  finally: fin], with a [fin] that returns nothing. *)
Definition try_finally {St A} (m : M St A) (fin : M St unit) : M St A :=
  fun s => match m s with
           | (Ok a, s') => bind fin (fun _ => ret a) s'
           | (Raise e, s') => bind fin (fun _ => raise e) s'
           end.

Definition lift_outcome {St A} (o : Outcome A) : M St A := fun s => (o, s).

(** Python truth value. *)
Definition truthy (v : PyVal) : bool :=
  match v with
  | VUnset => false
  | VNone => false
  | VBool b => b
  | VInt z => negb (z =? 0)
  | VFloat f => negb (PrimFloat.eqb f 0%float)
  | VStr s => negb (String.eqb s "")
  | VDict items => match items with [] => false | _ => true end
  end.

(** [a or b] and [not a]. *)
Definition py_or (a b : PyVal) : PyVal := if truthy a then a else b.

Definition py_not (a : PyVal) : bool := negb (truthy a).

(** [int(f)] for a float: truncation toward zero. *)
Definition int_of_float (f : float) : Outcome Z :=
  match Prim2SF f with
  | S754_zero _ => Ok 0
  | S754_finite s m e =>
      let v := if 0 <=? e then Z.pos m * 2 ^ e else Z.pos m / 2 ^ (- e) in
      Ok (if s then - v else v)
  | S754_infinity _ => Raise (OverflowError "cannot convert float infinity to integer")
  | S754_nan => Raise (ValueError (VFloat f) "cannot convert float NaN to integer")
  end.

(** Exact comparison of an int with a float, as Python compares the two
    ([None]: the float is a NaN). *)
Definition cmp_Z_float (z : Z) (f : float) : option comparison :=
  match Prim2SF f with
  | S754_nan => None
  | S754_infinity s => Some (if s then Gt else Lt)
  | S754_zero _ => Some (z ?= 0)
  | S754_finite s m e =>
      let v := if s then Z.neg m else Z.pos m in
      if 0 <=? e then Some (z ?= v * 2 ^ e) else Some (z * 2 ^ (- e) ?= v)
  end.

(** [float(z)]: rounding to nearest, ties to even. *)
Definition float_of_Z (z : Z) : Outcome float :=
  match binary_normalize prec emax z 0 false with
  | S754_infinity _ => Raise (OverflowError "int too large to convert to float")
  | sf => Ok (SF2Prim sf)
  end.

(** The numbers among the values; [bool] is a subclass of [int]. *)
Inductive num :=
| NInt (z : Z)
| NFloat (f : float).

Definition as_num (v : PyVal) : option num :=
  match v with
  | VInt z => Some (NInt z)
  | VBool b => Some (NInt (if b then 1 else 0))
  | VFloat f => Some (NFloat f)
  | _ => None
  end.

Definition num_compare (a b : num) : option comparison :=
  match a, b with
  | NInt x, NInt y => Some (x ?= y)
  | NFloat x, NFloat y => SFcompare (Prim2SF x) (Prim2SF y)
  | NInt x, NFloat y => cmp_Z_float x y
  | NFloat x, NInt y => option_map CompOpp (cmp_Z_float y x)
  end.

(** [a == b] for two values neither of which is a dict: numbers compare by
    value across [bool], [int] and [float]; the sentinel [UNSET] defines no
    [__eq__] and is equal to itself only. *)
Definition py_eq (a b : PyVal) : bool :=
  match a, b with
  | VUnset, VUnset => true
  | VNone, VNone => true
  | VStr s, VStr t => String.eqb s t
  | _, _ =>
      match as_num a, as_num b with
      | Some x, Some y => match num_compare x y with Some Eq => true | _ => false end
      | _, _ => false
      end
  end.

(** [a == b] for two tuples. *)
Fixpoint tuple_eq (a b : list PyVal) : bool :=
  match a, b with
  | [], [] => true
  | x :: a', y :: b' => py_eq x y && tuple_eq a' b'
  | _, _ => false
  end.

(** [v == z] for an int literal [z] ([True == 1] and [1.0 == 1] hold). *)
Definition eq_int (v : PyVal) (z : Z) : bool :=
  match as_num v with
  | Some n => match num_compare n (NInt z) with Some Eq => true | _ => false end
  | None => false
  end.

(** [v + z] for an int [z]. *)
Definition py_add_int (v : PyVal) (z : Z) : Outcome PyVal :=
  match as_num v with
  | Some (NInt x) => Ok (VInt (x + z))
  | Some (NFloat x) =>
      match float_of_Z z with
      | Ok fz => Ok (VFloat (PrimFloat.add x fz))
      | Raise e => Raise e
      end
  | None => Raise (TypeError "unsupported operand type(s) for +")
  end.

(** [a < b] where [b] is a number. *)
Definition py_lt_num (a b : PyVal) : Outcome bool :=
  match as_num a, as_num b with
  | Some x, Some y =>
      Ok (match num_compare x y with Some Lt => true | _ => false end)
  | _, _ => Raise (TypeError "'<' not supported")
  end.

(** [int(v * 1000)] for a number [v]; a string operand (which Python
    repeats a thousand times) is outside the model. *)
Definition int_times_1000 (v : PyVal) : Outcome Z :=
  match v with
  | VInt z => Ok (z * 1000)
  | VBool b => Ok (if b then 1000 else 0)
  | VFloat f => int_of_float (PrimFloat.mul f 1000%float)
  | VStr _ => Raise (OutsideModel "sequence repetition")
  | _ => Raise (TypeError "unsupported operand type(s) for *")
  end.

(** ASCII [str.lower] and the substring test [needle in hay]. *)
Definition lower_char (c : ascii) : ascii :=
  let n := N_of_ascii c in
  if ((65 <=? n) && (n <=? 90))%N then ascii_of_N (n + 32) else c.

Fixpoint lower (s : string) : string :=
  match s with
  | EmptyString => EmptyString
  | String c rest => String (lower_char c) (lower rest)
  end.

Fixpoint contains (needle hay : string) : bool :=
  String.prefix needle hay ||
  match hay with
  | EmptyString => false
  | String _ rest => contains needle rest
  end.

(** [v == s] for a string literal [s]. *)
Definition eq_str (v : PyVal) (s : string) : bool :=
  match v with
  | VStr t => String.eqb t s
  | _ => false
  end.

(** [str(z)] for an int. *)
Definition str_of_Z (z : Z) : string := NilZero.string_of_int (Z.to_int z).

(** The ASCII characters [int] strips from both ends of a string: those
    for which [str.isspace] holds. *)
Definition is_space (c : ascii) : bool :=
  let n := N_of_ascii c in
  (((9 <=? n) && (n <=? 13)) || ((28 <=? n) && (n <=? 32)))%N.

Fixpoint lstrip (s : string) : string :=
  match s with
  | String c rest => if is_space c then lstrip rest else s
  | EmptyString => EmptyString
  end.

Fixpoint rstrip (s : string) : string :=
  match s with
  | EmptyString => EmptyString
  | String c rest =>
      match rstrip rest with
      | EmptyString => if is_space c then EmptyString else String c EmptyString
      | rest' => String c rest'
      end
  end.

Definition digit_of (c : ascii) : option Z :=
  let n := N_of_ascii c in
  if ((48 <=? n) && (n <=? 57))%N then Some (Z.of_N (n - 48)) else None.

(** The decimal digits of [s] read after the number [acc]; one underscore
    may stand between two digits, and [after_digit] says that the
    character before was a digit. *)
Fixpoint read_digits (s : string) (acc : Z) (after_digit : bool) : option Z :=
  match s with
  | EmptyString => if after_digit then Some acc else None
  | String c rest =>
      match digit_of c with
      | Some d => read_digits rest (10 * acc + d) true
      | None =>
          if Ascii.eqb c "_" && after_digit then read_digits rest acc false else None
      end
  end.

(** [int(s)] for a string of ASCII characters: white space around, an
    optional sign, then digits. *)
Definition int_of_str (s : string) : option Z :=
  match rstrip (lstrip s) with
  | String "+" digits => read_digits digits 0 false
  | String "-" digits => option_map Z.opp (read_digits digits 0 false)
  | digits => read_digits digits 0 false
  end.

Fixpoint is_ascii (s : string) : bool :=
  match s with
  | EmptyString => true
  | String c rest => (N_of_ascii c <? 128)%N && is_ascii rest
  end.

(** [int(v)].  A string is read in base 10 as Python reads it; a string
    with a character outside ASCII, where Python also reads the digits and
    the white space of other scripts, is outside the model, and so is the
    limit later versions of the interpreter put on the number of
    digits. *)
Definition py_int (v : PyVal) : Outcome Z :=
  match v with
  | VInt z => Ok z
  | VBool b => Ok (if b then 1 else 0)
  | VFloat f => int_of_float f
  | VStr s =>
      if negb (is_ascii s) then Raise (OutsideModel "int() of a string outside ASCII")
      else match int_of_str s with
           | Some z => Ok z
           | None => Raise (ValueError v "invalid literal for int() with base 10")
           end
  | _ => Raise (TypeError "int() argument must be a string or a real number")
  end.

(** [lo <= v <= hi] for int literals [lo] and [hi]; a NaN compares false. *)
Definition between (lo hi : Z) (v : PyVal) : Outcome bool :=
  match as_num v with
  | Some n =>
      Ok (match num_compare (NInt lo) n with
          | Some Lt | Some Eq =>
              match num_compare n (NInt hi) with
              | Some Lt | Some Eq => true
              | _ => false
              end
          | _ => false
          end)
  | None => Raise (TypeError "'<=' not supported")
  end.

(** [s.split(sep)] for a separator of one character. *)
Fixpoint split (sep : ascii) (s : string) : list string :=
  match s with
  | EmptyString => [EmptyString]
  | String c rest =>
      if Ascii.eqb c sep then EmptyString :: split sep rest
      else match split sep rest with
           | piece :: pieces => String c piece :: pieces
           | [] => [String c EmptyString]
           end
  end.

Definition tab : ascii := "009"%char.
Definition newline : ascii := "010"%char.

End py.
Export py.

Declare Scope py_scope.
Delimit Scope py_scope with py.
Notation "'let*' x ':=' m 'in' k" := (bind m (fun x => k))
  (at level 10, x name, m at level 100, k at level 200) : py_scope.
Notation "m ';;' k" := (bind m (fun _ => k))
  (at level 100, k at level 200, right associativity) : py_scope.
Local Open Scope py_scope.

(** ** settings.py *)

Module settings.

(** [class Settings]: a mutable dataclass. *)
Record Settings := {
  control_delay : PyVal;
  key_delay : PyVal;
  key_duration : PyVal;
  key_delay_play : PyVal;
  key_duration_play : PyVal;
  mouse_delay : PyVal;
  mouse_delay_play : PyVal;
  mouse_speed : PyVal;
  send_level : PyVal;
  send_mode : PyVal;
  win_delay : PyVal
}.

(** [Settings()]: the field defaults. *)
Definition Settings_init : Settings := {|
  control_delay := VFloat 0.02;
  key_delay := VFloat 0.01;
  key_duration := VInt (-1);
  key_delay_play := VInt (-1);
  key_duration_play := VInt (-1);
  mouse_delay := VFloat 0.01;
  mouse_delay_play := VInt (-1);
  mouse_speed := VInt 2;
  send_level := VInt 0;
  send_mode := VStr "input";
  win_delay := VFloat 0.1
|}.

Inductive field :=
| f_control_delay | f_key_delay | f_key_duration | f_key_delay_play
| f_key_duration_play | f_mouse_delay | f_mouse_delay_play | f_mouse_speed
| f_send_level | f_send_mode | f_win_delay.

#[global] Instance field_eq_dec : EqDecision field.
Proof. solve_decision. Defined.

Definition getattr (s : Settings) (f : field) : PyVal :=
  match f with
  | f_control_delay => control_delay s
  | f_key_delay => key_delay s
  | f_key_duration => key_duration s
  | f_key_delay_play => key_delay_play s
  | f_key_duration_play => key_duration_play s
  | f_mouse_delay => mouse_delay s
  | f_mouse_delay_play => mouse_delay_play s
  | f_mouse_speed => mouse_speed s
  | f_send_level => send_level s
  | f_send_mode => send_mode s
  | f_win_delay => win_delay s
  end.

Definition setattr (s : Settings) (f : field) (v : PyVal) : Settings :=
  let pick g := if decide (f = g) then v else getattr s g in
  {| control_delay := pick f_control_delay;
     key_delay := pick f_key_delay;
     key_duration := pick f_key_duration;
     key_delay_play := pick f_key_delay_play;
     key_duration_play := pick f_key_duration_play;
     mouse_delay := pick f_mouse_delay;
     mouse_delay_play := pick f_mouse_delay_play;
     mouse_speed := pick f_mouse_speed;
     send_level := pick f_send_level;
     send_mode := pick f_send_mode;
     win_delay := pick f_win_delay |}.

(** The objects of class [Settings] that exist, by reference, and the value
    of the context variable [_current_settings] in the running context
    ([None]: the lookup raises [LookupError]). *)
Record Store := {
  objs : list Settings;
  current : option nat
}.

(** The module global [default_settings] is the first object created. *)
Definition default_settings : nat := 0%nat.

(** The store once the module is imported:
    [default_settings = Settings(); set_settings(default_settings)]. *)
Definition Store_init : Store :=
  {| objs := [Settings_init]; current := Some default_settings |}.

Definition SM := M Store.

Definition deref (r : nat) : SM Settings :=
  fun st => match objs st !! r with
            | Some s => (Ok s, st)
            | None => (Raise (NoSuchObject r), st)
            end.

Definition alloc (s : Settings) : SM nat :=
  fun st => (Ok (length (objs st)),
             {| objs := objs st ++ [s]; current := current st |}).

(** [obj.f = v]. *)
Definition store_attr (r : nat) (f : field) (v : PyVal) : SM unit :=
  let* s := deref r in
  fun st => (Ok tt, {| objs := <[r := setattr s f v]> (objs st);
                       current := current st |}).

(** [Settings.copy]: [dc.replace(self)] builds a new object from the fields
    of [self]. *)
Definition copy (self : nat) : SM nat :=
  let* s := deref self in alloc s.

Definition set_settings (settings : nat) : SM unit :=
  fun st => (Ok tt, {| objs := objs st; current := Some settings |}).

Definition get_settings : SM nat :=
  fun st => match current st with
            | Some r => (Ok r, st)
            | None =>
                (let* settings := copy default_settings in
                 set_settings settings ;;
                 ret settings) st
            end.

(** [class _SettingsManager]; [prior_settings] is set by [activate]. *)
Record _SettingsManager := {
  new_settings : nat;
  prior_settings : option nat
}.

Definition __init__ (new_settings0 : nat) : SM _SettingsManager :=
  let* c := copy new_settings0 in
  ret {| new_settings := c; prior_settings := None |}.

Definition activate (self : _SettingsManager) : SM (nat * _SettingsManager) :=
  let* prior := get_settings in
  set_settings (new_settings self) ;;
  ret (new_settings self,
       {| new_settings := new_settings self; prior_settings := Some prior |}).

Definition __enter__ := activate.

Definition __exit__ (self : _SettingsManager) : SM unit :=
  match prior_settings self with
  | Some prior => set_settings prior
  | None => raise (AttributeError "prior_settings")
  end.

Definition local_settings (settings0 : option nat) : SM _SettingsManager :=
  let* s := match settings0 with
            | None => get_settings
            | Some s => ret s
            end in
  __init__ s.

(** [with local_settings(settings0) as settings: body settings].
    [__exit__] returns [None], so an exception of the body propagates. *)
Definition with_local_settings {A} (settings0 : option nat) (body : nat -> SM A) : SM A :=
  let* mgr := local_settings settings0 in
  let* entered := __enter__ mgr in
  try_finally (body (fst entered)) (__exit__ (snd entered)).

(** A scoped body that assigns fields of the scoped copy and may raise. *)
Inductive stmt :=
| Assign (f : field) (v : PyVal)
| RaiseStmt (e : Exn).

Fixpoint exec (body : list stmt) (settings0 : nat) : SM unit :=
  match body with
  | [] => ret tt
  | Assign f v :: rest => store_attr settings0 f v ;; exec rest settings0
  | RaiseStmt e :: _ => raise e
  end.

(** What [get_settings()] reads in a store: the current object, or the
    defaults it would copy. *)
Definition ambient (st : Store) : option Settings :=
  match current st with
  | Some p => objs st !! p
  | None => objs st !! default_settings
  end.

(** [optional_ms]. *)
Definition optional_ms (value : PyVal) : Outcome Z :=
  match value with
  | VNone => Ok (-1)
  | VInt z => if z <? 0 then Ok (-1) else Ok (z * 1000)
  | VBool b => Ok (if b then 1000 else 0)
  | VFloat f => if PrimFloat.ltb f 0%float then Ok (-1)
                else int_of_float (PrimFloat.mul f 1000%float)
  | _ => Raise (TypeError "'<' not supported")
  end.

End settings.

(** ** flow.py and converters.py (the parts window.py uses) *)

Module flow.

(** One command on the channel: [ahk_call(cmd, *args)]. *)
Record Call := {
  cmd : string;
  args : list PyVal
}.

(** Modelled from the spec: [flow.ahk_call] is not under src/.  The command
    channel is one synchronous operation that either returns a value or
    fails with an error carrying a code; AutoHotkey keeps its own state
    between commands. *)
Class Backend := {
  ahk_state : Type;
  run_command : Call -> ahk_state -> Outcome PyVal * ahk_state
}.

(** The interpreter's [hash] of the tuple of field values of a frozen
    dataclass instance (string hashing is salted per process). *)
Class Interp := {
  hash_tuple : list PyVal -> Z
}.

(** What a thread of the program sees: AutoHotkey, the commands sent so far
    (oldest first) and the settings objects. *)
Record World `{Backend} := {
  ahk : ahk_state;
  calls : list Call;
  store : settings.Store
}.

Definition ahk_call `{Backend} (c : string) (a : list PyVal) : M World PyVal :=
  fun w =>
    let call := {| cmd := c; args := a |} in
    let r := run_command call (ahk w) in
    (fst r, {| ahk := snd r; calls := calls w ++ [call]; store := store w |}).

(** Run a function of settings.py in the world. *)
Definition in_store `{Backend} {A} (m : settings.SM A) : M World A :=
  fun w =>
    let r := m (store w) in
    (fst r, {| ahk := ahk w; calls := calls w; store := snd r |}).

(** [get_settings().f]. *)
Definition read_setting `{Backend} (f : settings.field) : M World PyVal :=
  in_store (let* r := settings.get_settings in
            let* s := settings.deref r in
            ret (settings.getattr s f)).

End flow.
Export flow.

Module converters.

(** A field of a filter: [UNSET], [None], or a value. *)
Inductive tri (A : Type) :=
| Unset
| PyNone
| Val (a : A).
Arguments Unset {A}.
Arguments PyNone {A}.
Arguments Val {A} a.

Definition is_unset {A} (x : tri A) : bool :=
  match x with Unset => true | _ => false end.

Definition is_none {A} (x : tri A) : bool :=
  match x with PyNone => true | _ => false end.

(** Modelled from the spec: [converters.default] is not under src/.  Called
    as [default(value, default_value, none=UNSET)] it keeps the prior value
    for an omitted parameter: the result is [default_value] when [value] is
    the [none] sentinel and [value] otherwise. *)
Definition default {A} (value default_value : tri A) : tri A :=
  match value with
  | Unset => default_value
  | _ => value
  end.

(** [str(x)] for the object a field holds ([repr] of the sentinel is
    "UNSET"). *)
Definition tri_str {A} (str : A -> string) (x : tri A) : string :=
  match x with
  | Unset => "UNSET"
  | PyNone => "None"
  | Val a => str a
  end.

(** Modelled from the spec: [default(func, value, default_value, none=UNSET)]
    is [default_value] when [value] is [UNSET] and [func(value)] otherwise;
    here [func] is [str]. *)
Definition default_str {A} (str : A -> string) (value : tri A) (default_value : string) : string :=
  if is_unset value then default_value else tri_str str value.

(** Modelled from the spec: [default(value, default_value)], with [None] as
    the sentinel. *)
Definition default_none (value default_value : PyVal) : PyVal :=
  match value with
  | VNone => default_value
  | _ => value
  end.

(** Modelled from the spec: [default(int, value, default_value)], with
    [None] as the sentinel. *)
Definition default_int (value default_value : PyVal) : Outcome PyVal :=
  match value with
  | VNone => Ok default_value
  | _ => match py_int value with
         | Ok z => Ok (VInt z)
         | Raise e => Raise e
         end
  end.

(** The Python object a field holds. *)
Definition tri_val {A} (inj : A -> PyVal) (x : tri A) : PyVal :=
  match x with
  | Unset => VUnset
  | PyNone => VNone
  | Val a => inj a
  end.

End converters.
Export converters.

(** ** window.py: the filter [Windows] *)

Module window.

Definition TITLE_MATCH_MODES : list string :=
  ["startswith"; "contains"; "exact"; "regex"].

Definition TEXT_MATCH_MODES : list string := ["fast"; "slow"].

(** [x in TITLE_MATCH_MODES] for the object a parameter holds. *)
Definition in_modes (x : tri string) (modes : list string) : bool :=
  match x with
  | Val s => existsb (String.eqb s) modes
  | _ => false
  end.

(** [class WindowHandle], a frozen dataclass with the one field [id]; the
    class of the instance ([Window] or [Control]) selects the overriding
    methods. *)
Inductive HandleClass := WindowC | ControlC.

Module WindowHandle.
Record t := { cls : HandleClass; id : Z }.
End WindowHandle.

Definition Window (win_id : Z) : WindowHandle.t :=
  {| WindowHandle.cls := WindowC; WindowHandle.id := win_id |}.

Definition Control (control_id : Z) : WindowHandle.t :=
  {| WindowHandle.cls := ControlC; WindowHandle.id := control_id |}.

Definition WindowHandle___bool__ (self : WindowHandle.t) : bool :=
  negb (WindowHandle.id self =? 0).

(** [str(n).replace("-", "m")]: the pattern is one character. *)
Fixpoint replace_minus (s : string) : string :=
  match s with
  | EmptyString => EmptyString
  | String c rest =>
      String (if Ascii.eqb c "-"%char then "m"%char else c) (replace_minus rest)
  end.

(** [class Windows], a frozen dataclass. *)
Record Windows := {
  title : tri string;
  class_name : tri string;
  id : tri Z;
  pid : tri Z;
  exe : tri string;
  text : tri string;
  exclude_title : tri string;
  exclude_text : tri string;
  hidden_windows : bool;
  hidden_text : bool;
  title_mode : tri string;
  text_mode : string
}.

(** [Windows()]. *)
Definition Windows_init : Windows := {|
  title := Unset; class_name := Unset; id := Unset; pid := Unset;
  exe := Unset; text := Unset; exclude_title := Unset; exclude_text := Unset;
  hidden_windows := false; hidden_text := true;
  title_mode := Val "startswith"; text_mode := "fast"
|}.

(** The tuple of field values the generated [__eq__] and [__hash__] use. *)
Definition astuple (self : Windows) : list PyVal :=
  [ tri_val VStr (title self); tri_val VStr (class_name self);
    tri_val VInt (id self); tri_val VInt (pid self);
    tri_val VStr (exe self); tri_val VStr (text self);
    tri_val VStr (exclude_title self); tri_val VStr (exclude_text self);
    VBool (hidden_windows self); VBool (hidden_text self);
    tri_val VStr (title_mode self); VStr (text_mode self) ].

(** The generated [__eq__]: the tuples of field values are compared. *)
Definition Windows___eq__ (self other : Windows) : bool :=
  tuple_eq (astuple self) (astuple other).

Definition Windows___hash__ `{Interp} (self : Windows) : Z := hash_tuple (astuple self).

(** The parameters every filtering method takes, each [UNSET] by default;
    [a_match] is the parameter [match]. *)
Record FilterArgs := {
  a_title : tri string;
  a_class_name : tri string;
  a_id : tri Z;
  a_pid : tri Z;
  a_exe : tri string;
  a_text : tri string;
  a_match : tri string
}.

(** A call that passes none of them. *)
Definition no_args : FilterArgs := {|
  a_title := Unset; a_class_name := Unset; a_id := Unset; a_pid := Unset;
  a_exe := Unset; a_text := Unset; a_match := Unset
|}.

Definition all_unset (a : FilterArgs) : bool :=
  is_unset (a_title a) && is_unset (a_class_name a) && is_unset (a_id a) &&
  is_unset (a_pid a) && is_unset (a_exe a) && is_unset (a_text a) &&
  is_unset (a_match a).

Definition Windows_filter (self : Windows) (a : FilterArgs) : Outcome Windows :=
  if all_unset a then Ok self
  else if negb (is_unset (a_match a)) && negb (in_modes (a_match a) TITLE_MATCH_MODES)
  then Raise (ValueError (tri_val VStr (a_match a)) "is not a valid title match mode")
  else Ok {|
    title := default (a_title a) (title self);
    class_name := default (a_class_name a) (class_name self);
    id := default (a_id a) (id self);
    pid := default (a_pid a) (pid self);
    exe := default (a_exe a) (exe self);
    text := default (a_text a) (text self);
    exclude_title := exclude_title self;
    exclude_text := exclude_text self;
    hidden_windows := hidden_windows self;
    hidden_text := hidden_text self;
    title_mode := default (a_match a) (title_mode self);
    text_mode := text_mode self
  |}.

(** [dc.replace(self, exclude_title=..., exclude_text=...)] and the like. *)
Definition replace_exclude (self : Windows) (et ex : tri string) : Windows := {|
  title := title self; class_name := class_name self; id := id self;
  pid := pid self; exe := exe self; text := text self;
  exclude_title := et; exclude_text := ex;
  hidden_windows := hidden_windows self; hidden_text := hidden_text self;
  title_mode := title_mode self; text_mode := text_mode self
|}.

Definition replace_hidden_windows (self : Windows) (b : bool) : Windows := {|
  title := title self; class_name := class_name self; id := id self;
  pid := pid self; exe := exe self; text := text self;
  exclude_title := exclude_title self; exclude_text := exclude_text self;
  hidden_windows := b; hidden_text := hidden_text self;
  title_mode := title_mode self; text_mode := text_mode self
|}.

Definition replace_hidden_text (self : Windows) (b : bool) : Windows := {|
  title := title self; class_name := class_name self; id := id self;
  pid := pid self; exe := exe self; text := text self;
  exclude_title := exclude_title self; exclude_text := exclude_text self;
  hidden_windows := hidden_windows self; hidden_text := b;
  title_mode := title_mode self; text_mode := text_mode self
|}.

Definition replace_text_mode (self : Windows) (m : string) : Windows := {|
  title := title self; class_name := class_name self; id := id self;
  pid := pid self; exe := exe self; text := text self;
  exclude_title := exclude_title self; exclude_text := exclude_text self;
  hidden_windows := hidden_windows self; hidden_text := hidden_text self;
  title_mode := title_mode self; text_mode := m
|}.

Definition Windows_exclude (self : Windows) (title0 text0 : tri string) : Windows :=
  if is_unset title0 && is_unset text0 then self
  else replace_exclude self
         (default title0 (exclude_title self))
         (default text0 (exclude_text self)).

Definition Windows_include_hidden_windows (self : Windows) (include : bool) : Windows :=
  replace_hidden_windows self include.

Definition Windows_exclude_hidden_windows (self : Windows) : Windows :=
  replace_hidden_windows self false.

Definition Windows_include_hidden_text (self : Windows) (include : bool) : Windows :=
  replace_hidden_text self include.

Definition Windows_exclude_hidden_text (self : Windows) : Windows :=
  replace_hidden_text self false.

Definition Windows_match_text_slow (self : Windows) (is_slow : bool) : Windows :=
  if is_slow then replace_text_mode self "slow" else replace_text_mode self "fast".

(** [_include], [_exclude] and [_query]. *)
Definition Windows__include (self : Windows) : string * string :=
  let parts :=
    ((if is_unset (title self) then [] else [tri_str (fun s => s) (title self)]) ++
     (if is_unset (class_name self) then []
      else ["ahk_class " +:+ tri_str (fun s => s) (class_name self)]) ++
     (if is_unset (id self) then [] else ["ahk_id " +:+ tri_str str_of_Z (id self)]) ++
     (if is_unset (pid self) then [] else ["ahk_pid " +:+ tri_str str_of_Z (pid self)]) ++
     (if is_unset (exe self) then []
      else ["ahk_exe " +:+ tri_str (fun s => s) (exe self)]))%list in
  (String.concat " " parts, default_str (fun s => s) (text self) "").

Definition Windows__exclude (self : Windows) : string * string :=
  (default_str (fun s => s) (exclude_title self) "",
   default_str (fun s => s) (exclude_text self) "").

Definition Windows__query (self : Windows) : list string :=
  [fst (Windows__include self); snd (Windows__include self);
   fst (Windows__exclude self); snd (Windows__exclude self)].

(** The test that opens [Windows._call]. *)
Definition has_none (self : Windows) : bool :=
  is_none (title self) || is_none (class_name self) || is_none (id self) ||
  is_none (pid self) || is_none (exe self) || is_none (text self).

Section Commands.
Context `{Backend} `{Interp}.

Definition _set_title_match_mode (title_mode0 : tri string) : M World unit :=
  match title_mode0 with
  | Val "startswith" => ahk_call "SetTitleMatchMode" [VInt 1] ;; ret tt
  | Val "contains" => ahk_call "SetTitleMatchMode" [VInt 2] ;; ret tt
  | Val "exact" => ahk_call "SetTitleMatchMode" [VInt 3] ;; ret tt
  | Val "regex" => ahk_call "SetTitleMatchMode" [VStr "regex"] ;; ret tt
  | _ => raise (ValueError (tri_val VStr title_mode0) "is not a valid title match mode")
  end.

(** [ahk_call("SetWinDelay", optional_ms(get_settings().win_delay))].
    window.py imports [optional_ms] from converters.py, which is not under
    src/; the definition of the same name in settings.py is used. *)
Definition set_win_delay : M World unit :=
  let* d := read_setting settings.f_win_delay in
  let* ms := lift_outcome (settings.optional_ms d) in
  ahk_call "SetWinDelay" [VInt ms] ;; ret tt.

Definition on_off (b : bool) : PyVal := VStr (if b then "On" else "Off").

Definition Windows__call (self : Windows) (c : string) (a : list PyVal) (set_delay : bool)
  : M World PyVal :=
  if has_none self then ret VNone
  else
    ahk_call "DetectHiddenWindows" [on_off (hidden_windows self)] ;;
    (if negb (is_unset (text self)) || negb (is_unset (exclude_text self))
     then ahk_call "DetectHiddenText" [on_off (hidden_text self)] ;; ret tt
     else ret tt) ;;
    _set_title_match_mode (title_mode self) ;;
    (if String.eqb (text_mode self) "fast" then ahk_call "SetTitleMatchMode" [VStr "fast"]
     else if String.eqb (text_mode self) "slow" then ahk_call "SetTitleMatchMode" [VStr "slow"]
     else raise (ValueError (VStr (text_mode self)) "is not a valid text match mode")) ;;
    (if set_delay then set_win_delay else ret tt) ;;
    ahk_call c a.


(** [Window(win_id)] for a value the channel returned. *)
Definition Window_from (win_id : PyVal) : M World WindowHandle.t :=
  match win_id with
  | VInt z => ret (Window z)
  | _ => raise (OutsideModel "window id is not an int")
  end.

(** The decorator [filtering]: refine, then run the method. *)
Definition filtering {A} (func : Windows -> M World A) (self : Windows) (a : FilterArgs)
  : M World A :=
  let* self' := lift_outcome (Windows_filter self a) in
  func self'.

Definition strs (l : list string) : list PyVal := map VStr l.

Definition include_args (self : Windows) : list PyVal :=
  [VStr (fst (Windows__include self)); VStr (snd (Windows__include self))].

Definition exclude_args (self : Windows) : list PyVal :=
  [VStr (fst (Windows__exclude self)); VStr (snd (Windows__exclude self))].

Definition Windows_exist : Windows -> FilterArgs -> M World WindowHandle.t :=
  filtering (fun self =>
    let* r := Windows__call self "WinExist" (strs (Windows__query self)) false in
    Window_from (py_or r (VInt 0))).

Definition Windows_first := Windows_exist.
Definition Windows_top := Windows_exist.

Definition Windows_last : Windows -> FilterArgs -> M World WindowHandle.t :=
  filtering (fun self =>
    let* r := Windows__call self "WinGet" (VStr "IDLast" :: strs (Windows__query self)) false in
    Window_from (py_or r (VInt 0))).

Definition Windows_bottom := Windows_last.

Definition Windows_get_active : Windows -> FilterArgs -> M World WindowHandle.t :=
  filtering (fun self =>
    let query := Windows__query self in
    let query := if bool_decide (query = [""; ""; ""; ""]) then ["A"; ""; ""; ""] else query in
    let* r := Windows__call self "WinActive" (strs query) false in
    Window_from (py_or r (VInt 0))).

(** The module globals [windows = visible_windows = Windows()] and
    [all_windows]. *)
Definition windows : Windows := Windows_init.
Definition visible_windows : Windows := Windows_init.
Definition all_windows : Windows := Windows_include_hidden_windows windows true.

Definition is_VNone (v : PyVal) : bool :=
  match v with VNone => true | _ => false end.

Definition Windows__wait (self : Windows) (c : string) (timeout : PyVal)
  : M World WindowHandle.t :=
  let* timed_out :=
    Windows__call self c
      (include_args self ++ [py_or timeout (VStr "")] ++ exclude_args self)%list true in
  if is_VNone timed_out || truthy timed_out then ret (Window 0)
  else Windows_first windows no_args.

Definition Windows_wait (self : Windows) (a : FilterArgs) (timeout : PyVal) :=
  filtering (fun self => Windows__wait self "WinWait" timeout) self a.

Definition Windows_wait_active (self : Windows) (a : FilterArgs) (timeout : PyVal) :=
  filtering (fun self => Windows__wait self "WinWaitActive" timeout) self a.

Definition Windows_wait_inactive (self : Windows) (a : FilterArgs) (timeout : PyVal) :=
  filtering (fun self => Windows__wait self "WinWaitNotActive" timeout) self a.

Definition Windows_wait_close (self : Windows) (a : FilterArgs) (timeout : PyVal)
  : M World bool :=
  filtering (fun self =>
    let* timed_out :=
      Windows__call self "WinWaitClose"
        (include_args self ++ [py_or timeout (VStr "")] ++ exclude_args self)%list true in
    ret (py_not timed_out)) self a.

Definition Windows_activate (self : Windows) (a : FilterArgs) (timeout : PyVal)
  : M World (option WindowHandle.t) :=
  filtering (fun self =>
    Windows__call self "WinActivate" (strs (Windows__query self)) true ;;
    if negb (is_VNone timeout)
    then let* h := Windows_wait_active self no_args timeout in ret (Some h)
    else ret None) self a.

Definition Windows_close (self : Windows) (a : FilterArgs) (timeout : PyVal) : M World PyVal :=
  filtering (fun self =>
    Windows__call self "WinClose"
      (include_args self ++ [timeout] ++ exclude_args self)%list true ;;
    ret VNone) self a.

Definition Windows_kill (self : Windows) (a : FilterArgs) (timeout : PyVal) : M World PyVal :=
  filtering (fun self =>
    Windows__call self "WinKill"
      (include_args self ++ [timeout] ++ exclude_args self)%list true ;;
    ret VNone) self a.

(** The methods whose body is one command on the query. *)
Definition query_command (c : string) (pre : list PyVal) (set_delay : bool)
  : Windows -> FilterArgs -> M World PyVal :=
  filtering (fun self =>
    Windows__call self c (pre ++ strs (Windows__query self))%list set_delay ;;
    ret VNone).

Definition Windows_hide := query_command "WinHide" [] true.
Definition Windows_maximize := query_command "WinMaximize" [] true.
Definition Windows_minimize := query_command "WinMinimize" [] true.
Definition Windows_restore := query_command "WinRestore" [] true.
Definition Windows_show := query_command "WinShow" [] true.
Definition Windows_pin_to_top := query_command "WinSet" [VStr "AlwaysOnTop"; VStr "On"] false.
Definition Windows_unpin_from_top := query_command "WinSet" [VStr "AlwaysOnTop"; VStr "Off"] false.
Definition Windows_toggle_always_on_top :=
  query_command "WinSet" [VStr "AlwaysOnTop"; VStr "Toggle"] false.
Definition Windows_bring_to_top := query_command "WinSet" [VStr "Top"; VStr ""] false.
Definition Windows_send_to_bottom := query_command "WinSet" [VStr "Bottom"; VStr ""] false.
Definition Windows_disable := query_command "WinSet" [VStr "Disable"; VStr ""] false.
Definition Windows_enable := query_command "WinSet" [VStr "Enable"; VStr ""] false.
Definition Windows_redraw := query_command "WinSet" [VStr "Redraw"; VStr ""] false.

(** The group name [_group_action] derives: [str(hash(self))] with the
    minus sign replaced. *)
Definition group_name (self : Windows) : string :=
  replace_minus (str_of_Z (Windows___hash__ self)).

Definition Windows__group_action (self : Windows) (c : string) (timeout : PyVal)
  : M World PyVal :=
  if Windows___eq__ self Windows_init && String.eqb c "WinMinimize"
  then Windows__call self "WinMinimizeAll" [] true ;; ret VNone
  else
    let query_hash_str := group_name self in
    let label := "" in
    Windows__call self "GroupAdd"
      ([VStr query_hash_str] ++ include_args self ++ [VStr label] ++ exclude_args self)%list
      false ;;
    Windows__call self c [VStr ("ahk_group " +:+ query_hash_str); VStr ""; timeout] true ;;
    if negb (is_VNone timeout)
    then let* w := Windows_exist self no_args in
         ret (VBool (negb (WindowHandle___bool__ w)))
    else ret VNone.

Definition Windows_close_all (self : Windows) (a : FilterArgs) (timeout : PyVal) :=
  filtering (fun self => Windows__group_action self "WinClose" timeout) self a.

Definition Windows_hide_all : Windows -> FilterArgs -> M World PyVal :=
  filtering (fun self => Windows__group_action self "WinHide" VNone).

Definition Windows_kill_all (self : Windows) (a : FilterArgs) (timeout : PyVal) :=
  filtering (fun self => Windows__group_action self "WinKill" timeout) self a.

Definition Windows_maximize_all : Windows -> FilterArgs -> M World PyVal :=
  filtering (fun self => Windows__group_action self "WinMaximize" VNone).

Definition Windows_minimize_all : Windows -> FilterArgs -> M World PyVal :=
  filtering (fun self => Windows__group_action self "WinMinimize" VNone).

Definition Windows_restore_all : Windows -> FilterArgs -> M World PyVal :=
  filtering (fun self => Windows__group_action self "WinRestore" VNone ;; ret VNone).

Definition Windows_show_all : Windows -> FilterArgs -> M World PyVal :=
  filtering (fun self => Windows__group_action self "WinShow" VNone ;; ret VNone).

(** [__iter__], run to exhaustion: the windows it yields, top to bottom. *)
Fixpoint windows_from (ids : list PyVal) : M World (list WindowHandle.t) :=
  match ids with
  | [] => ret []
  | win_id :: rest =>
      let* w := Window_from win_id in
      let* ws := windows_from rest in
      ret (w :: ws)
  end.

Definition Windows___iter__ (self : Windows) : M World (list WindowHandle.t) :=
  let* win_ids := Windows__call self "WinGet" (VStr "List" :: strs (Windows__query self)) false in
  match win_ids with
  | VNone => ret []
  | VDict items => windows_from (map snd items)
  | _ => raise (AttributeError "values")
  end.

Definition Windows___len__ (self : Windows) : M World PyVal :=
  let* n := Windows__call self "WinGet" (VStr "Count" :: strs (Windows__query self)) false in
  ret (py_or n (VInt 0)).


(** ** window.py: the handles [Window] and [Control] *)

(** [WindowStyle], an [IntFlag]: the bits that are tested, and the named
    presets. *)
Definition WS_BORDER : Z := 0x00800000.
Definition WS_CAPTION : Z := 0x00C00000.
Definition WS_DISABLED : Z := 0x08000000.
Definition WS_MAXIMIZEBOX : Z := 0x00010000.
Definition WS_MINIMIZEBOX : Z := 0x00020000.
Definition WS_OVERLAPPED : Z := 0x00000000.
Definition WS_POPUP : Z := 0x80000000.
Definition WS_SYSMENU : Z := 0x00080000.
Definition WS_THICKFRAME : Z := 0x00040000.
Definition WS_VISIBLE : Z := 0x10000000.
Definition WS_OVERLAPPEDWINDOW : Z :=
  Z.lor WS_OVERLAPPED (Z.lor WS_CAPTION (Z.lor WS_SYSMENU
    (Z.lor WS_THICKFRAME (Z.lor WS_MINIMIZEBOX WS_MAXIMIZEBOX)))).
Definition WS_POPUPWINDOW : Z := Z.lor WS_POPUP (Z.lor WS_BORDER WS_SYSMENU).

(** [flag in style] for two members of an [IntFlag]. *)
Definition flag_in (flag style : Z) : bool := Z.land flag style =? flag.

(** [WindowStyle(style)] for a value the channel returned. *)
Definition WindowStyle (style : PyVal) : M World Z :=
  match style with
  | VInt z => ret z
  | VBool b => ret (if b then 1 else 0)
  | VFloat _ => raise (OutsideModel "flag lookup by a float")
  | _ => raise (ValueError style "is not a valid WindowStyle")
  end.

Definition WindowHandle__include (self : WindowHandle.t) : list PyVal :=
  let win_text := "" in
  [VStr ("ahk_id " +:+ str_of_Z (WindowHandle.id self)); VStr win_text].

(** [Control._set_delay]. *)
Definition set_control_delay : M World unit :=
  let* d := read_setting settings.f_control_delay in
  let* ms := lift_outcome (settings.optional_ms d) in
  ahk_call "SetControlDelay" [VInt ms] ;; ret tt.

(** [self._set_delay()]: [Window._set_delay] or [Control._set_delay]. *)
Definition self__set_delay (self : WindowHandle.t) : M World unit :=
  match WindowHandle.cls self with
  | WindowC => set_win_delay
  | ControlC => set_control_delay
  end.

(** [WindowHandle._call]; [title_mode0] is [PyNone] when not given. *)
Definition WindowHandle__call (self : WindowHandle.t) (c : string) (a : list PyVal)
    (hidden_windows0 : bool) (title_mode0 : tri string) (set_delay : bool) : M World PyVal :=
  if WindowHandle.id self =? 0 then ret VNone
  else
    ahk_call "DetectHiddenWindows" [on_off hidden_windows0] ;;
    (if negb (is_none title_mode0) then _set_title_match_mode title_mode0 else ret tt) ;;
    (if set_delay then self__set_delay self else ret tt) ;;
    ahk_call c a.

(** The depth to which [Control._call] and [exists] may call each other
    before the interpreter raises [RecursionError]. *)
Definition recursion_limit : nat := 300%nat.

(** [Control._call]: a "not found" error of a control that is gone becomes
    [None].  [super().exists] calls [self._call] again, which is this
    method. *)
Fixpoint Control__call_at (depth : nat) (self : WindowHandle.t) (c : string) (a : list PyVal)
    (hidden_windows0 : bool) (title_mode0 : tri string) (set_delay : bool) : M World PyVal :=
  try_except (WindowHandle__call self c a hidden_windows0 title_mode0 set_delay)
    (fun err =>
       match err with
       | Error message =>
           if eq_int message 1 then
             match depth with
             | O => raise RecursionError
             | S d =>
                 let* e := Control__call_at d self "WinExist" (WindowHandle__include self)
                             true PyNone false in
                 if negb (truthy e) then ret VNone else raise err
             end
           else raise err
       | _ => raise err
       end).

Definition Control__call := Control__call_at recursion_limit.

(** [self._call(...)], by the class of [self]. *)
Definition self__call (self : WindowHandle.t) (c : string) (a : list PyVal)
    (hidden_windows0 : bool) (title_mode0 : tri string) (set_delay : bool) : M World PyVal :=
  match WindowHandle.cls self with
  | WindowC => WindowHandle__call self c a hidden_windows0 title_mode0 set_delay
  | ControlC => Control__call self c a hidden_windows0 title_mode0 set_delay
  end.

Definition BaseWindow_exists (self : WindowHandle.t) : M World bool :=
  let* r := self__call self "WinExist" (WindowHandle__include self) true PyNone false in
  ret (truthy r).

Definition Window__get (self : WindowHandle.t) (subcmd : string) : M World PyVal :=
  let* result := self__call self "WinGet" (VStr subcmd :: WindowHandle__include self)
                   true PyNone false in
  if negb (eq_str result "") then ret result else ret VNone.

Definition Control__get (self : WindowHandle.t) (subcmd : string) (value : string)
  : M World PyVal :=
  self__call self "ControlGet"
    ([VStr subcmd; VStr value; VStr ""] ++ WindowHandle__include self)%list true PyNone false.

(** [self._get(subcmd)]. *)
Definition self__get (self : WindowHandle.t) (subcmd : string) : M World PyVal :=
  match WindowHandle.cls self with
  | WindowC => Window__get self subcmd
  | ControlC => Control__get self subcmd ""
  end.

Definition BaseWindow__set (self : WindowHandle.t) (subcmd : string) (value : PyVal)
  : M World PyVal :=
  self__call self "WinSet" ([VStr subcmd; value] ++ WindowHandle__include self)%list
    true PyNone false.

Definition Window__get_pos (self : WindowHandle.t) : M World PyVal :=
  self__call self "WinGetPos" (WindowHandle__include self) true PyNone false.

Definition Control__get_pos (self : WindowHandle.t) : M World PyVal :=
  self__call self "ControlGetPos" (VStr "" :: WindowHandle__include self) true PyNone false.

Definition self__get_pos (self : WindowHandle.t) : M World PyVal :=
  match WindowHandle.cls self with
  | WindowC => Window__get_pos self
  | ControlC => Control__get_pos self
  end.

Definition Window__move (self : WindowHandle.t) (x y width height : PyVal) : M World unit :=
  self__call self "WinMove" (WindowHandle__include self ++ [x; y; width; height])%list
    true PyNone true ;;
  ret tt.

Definition Control__move (self : WindowHandle.t) (x y width height : PyVal) : M World unit :=
  self__call self "ControlMove"
    ([VStr ""; x; y; width; height] ++ WindowHandle__include self)%list true PyNone true ;;
  ret tt.

Definition self__move (self : WindowHandle.t) (x y width height : PyVal) : M World unit :=
  match WindowHandle.cls self with
  | WindowC => Window__move self x y width height
  | ControlC => Control__move self x y width height
  end.

(** The property [style]: [None], or the flags. *)
Definition BaseWindow_style (self : WindowHandle.t) : M World (option Z) :=
  let* style := self__get self "Style" in
  if negb (is_VNone style)
  then let* flags := WindowStyle style in ret (Some flags)
  else ret None.

Definition BaseWindow_class_name (self : WindowHandle.t) : M World PyVal :=
  let* class_name0 := self__call self "WinGetClass" (WindowHandle__include self)
                        true PyNone false in
  if negb (eq_str class_name0 "") then ret class_name0 else ret VNone.

(** [result[key]]. *)
Definition getitem (result : PyVal) (key : string) : M World PyVal :=
  match result with
  | VDict items =>
      match List.find (fun kv => String.eqb (fst kv) key) items with
      | Some kv => ret (snd kv)
      | None => raise (KeyError key)
      end
  | _ => raise (TypeError "object is not subscriptable")
  end.

Definition none_if_empty (v : PyVal) : PyVal :=
  if negb (eq_str v "") then v else VNone.

(** The property [rect]. *)
Definition BaseWindow_rect (self : WindowHandle.t) : M World (PyVal * PyVal * PyVal * PyVal) :=
  let* result := self__get_pos self in
  let* r := (if negb (is_VNone result)
             then let* x := getitem result "X" in
                  let* y := getitem result "Y" in
                  let* width := getitem result "Width" in
                  let* height := getitem result "Height" in
                  ret (x, y, width, height)
             else ret (VNone, VNone, VNone, VNone)) in
  let '(x, y, width, height) := r in
  ret (none_if_empty x, none_if_empty y, none_if_empty width, none_if_empty height).

Definition BaseWindow_move (self : WindowHandle.t) (x y width height : PyVal) : M World unit :=
  let* x' := lift_outcome (default_int x (VStr "")) in
  let* y' := lift_outcome (default_int y (VStr "")) in
  let* width' := lift_outcome (default_int width (VStr "")) in
  let* height' := lift_outcome (default_int height (VStr "")) in
  self__move self x' y' width' height'.

Definition BaseWindow_set_rect (self : WindowHandle.t) (new_rect : PyVal * PyVal * PyVal * PyVal)
  : M World unit :=
  let '(x, y, width, height) := new_rect in
  BaseWindow_move self x y width height.


Definition BaseWindow_set_position (self : WindowHandle.t) (new_position : PyVal * PyVal)
  : M World unit :=
  let '(x, y) := new_position in
  BaseWindow_move self x y VNone VNone.

Definition BaseWindow_x (self : WindowHandle.t) : M World PyVal :=
  let* r := BaseWindow_rect self in
  let '(x, _, _, _) := r in ret x.

Definition BaseWindow_set_x (self : WindowHandle.t) (new_x : PyVal) : M World unit :=
  BaseWindow_move self new_x VNone VNone VNone.

Definition BaseWindow_y (self : WindowHandle.t) : M World PyVal :=
  let* r := BaseWindow_rect self in
  let '(_, y, _, _) := r in ret y.

Definition BaseWindow_set_y (self : WindowHandle.t) (new_y : PyVal) : M World unit :=
  BaseWindow_move self VNone new_y VNone VNone.

Definition BaseWindow_width (self : WindowHandle.t) : M World PyVal :=
  let* r := BaseWindow_rect self in
  let '(_, _, width, _) := r in ret width.

Definition BaseWindow_set_width (self : WindowHandle.t) (new_width : PyVal) : M World unit :=
  BaseWindow_move self VNone VNone new_width VNone.

Definition BaseWindow_height (self : WindowHandle.t) : M World PyVal :=
  let* r := BaseWindow_rect self in
  let '(_, _, _, height) := r in ret height.

Definition BaseWindow_set_height (self : WindowHandle.t) (new_height : PyVal) : M World unit :=
  BaseWindow_move self VNone VNone VNone new_height.

(** The properties [is_enabled] and [is_visible]. *)
Definition BaseWindow_is_enabled (self : WindowHandle.t) : M World PyVal :=
  let* style := BaseWindow_style self in
  match style with
  | Some flags => ret (VBool (negb (flag_in WS_DISABLED flags)))
  | None => ret VNone
  end.

Definition BaseWindow_is_visible (self : WindowHandle.t) : M World PyVal :=
  let* style := BaseWindow_style self in
  match style with
  | None => ret (VBool false)
  | Some flags => ret (VBool (flag_in WS_VISIBLE flags))
  end.


(** [except Error as err]: the handler sees the [message] of an [Error];
    any other exception passes through. *)
Definition except_Error {A} (m : M World A) (h : PyVal -> M World A) : M World A :=
  try_except m (fun err => match err with
                           | Error message => h message
                           | _ => raise err
                           end).

Definition BaseWindow_send_message (self : WindowHandle.t) (msg w_param l_param timeout : PyVal)
  : M World PyVal :=
  let control := "" in
  let exclude_title0 := "" in
  let exclude_text0 := "" in
  except_Error
    (let* msg' := lift_outcome (py_int msg) in
     let* w_param' := lift_outcome (py_int w_param) in
     let* l_param' := lift_outcome (py_int l_param) in
     let* ms := lift_outcome (int_times_1000 timeout) in
     self__call self "SendMessage"
       ([VInt msg'; VInt w_param'; VInt l_param'; VStr control] ++ WindowHandle__include self ++
        [VStr exclude_title0; VStr exclude_text0; VInt ms])%list true PyNone false)
    (fun message =>
       if eq_str message "FAIL" then
         let* e := BaseWindow_exists self in
         if negb e then ret VNone
         else raise (Error (VStr "there was a problem sending message or response timed out"))
       else raise (Error message)).

(** *** [class Window] *)

Definition Window_is_active (self : WindowHandle.t) : M World bool :=
  let* r := self__call self "WinActive" (WindowHandle__include self) true PyNone false in
  ret (truthy r).

(** The four waits of a [Window]: [if_none] is returned for a handle that
    is not a window. *)
Definition Window_wait_command (self : WindowHandle.t) (c : string) (timeout : PyVal)
    (hidden_windows0 : bool) (if_none : bool) : M World bool :=
  let* timed_out := self__call self c (WindowHandle__include self ++ [timeout])%list
                      hidden_windows0 PyNone true in
  if is_VNone timed_out then ret if_none
  else ret (py_not timed_out).

Definition Window_wait_active (self : WindowHandle.t) (timeout : PyVal) : M World bool :=
  Window_wait_command self "WinWaitActive" timeout true false.

Definition Window_wait_inactive (self : WindowHandle.t) (timeout : PyVal) : M World bool :=
  Window_wait_command self "WinWaitNotActive" timeout true true.

Definition Window_wait_hidden (self : WindowHandle.t) (timeout : PyVal) : M World bool :=
  Window_wait_command self "WinWaitClose" timeout false true.

Definition Window_wait_close (self : WindowHandle.t) (timeout : PyVal) : M World bool :=
  Window_wait_command self "WinWaitClose" timeout true true.

Definition Window_close_command (self : WindowHandle.t) (c : string) (timeout : PyVal)
  : M World PyVal :=
  self__call self c (WindowHandle__include self ++ [timeout])%list true PyNone true ;;
  if negb (is_VNone timeout)
  then let* e := BaseWindow_exists self in ret (VBool (negb e))
  else ret VNone.

Definition Window_close (self : WindowHandle.t) (timeout : PyVal) : M World PyVal :=
  Window_close_command self "WinClose" timeout.


Definition Window_command (c : string) (self : WindowHandle.t) : M World PyVal :=
  self__call self c (WindowHandle__include self) true PyNone true ;; ret VNone.

Definition Window_hide := Window_command "WinHide".
Definition Window_maximize := Window_command "WinMaximize".
Definition Window_minimize := Window_command "WinMinimize".
Definition Window_restore := Window_command "WinRestore".

Definition Window_activate (self : WindowHandle.t) (timeout : PyVal) : M World PyVal :=
  self__call self "WinActivate" (WindowHandle__include self) true PyNone false ;;
  if negb (is_VNone timeout)
  then let* b := Window_wait_active self timeout in ret (VBool b)
  else ret VNone.

Definition Window_set_command (subcmd : string) (value : PyVal) (self : WindowHandle.t)
  : M World PyVal :=
  BaseWindow__set self subcmd value ;; ret VNone.

Definition Window_pin_to_top := Window_set_command "AlwaysOnTop" (VStr "On").
Definition Window_unpin_from_top := Window_set_command "AlwaysOnTop" (VStr "Off").
Definition Window_toggle_always_on_top := Window_set_command "AlwaysOnTop" (VStr "Toggle").
Definition Window_send_to_bottom := Window_set_command "Bottom" (VStr "").
Definition Window_bring_to_top := Window_set_command "Top" (VStr "").
Definition Window_disable := Window_set_command "Disable" (VStr "").
Definition Window_enable := Window_set_command "Enable" (VStr "").
Definition Window_redraw := Window_set_command "Redraw" (VStr "").

Definition Window_pid (self : WindowHandle.t) := Window__get self "PID".
Definition Window_process_name (self : WindowHandle.t) := Window__get self "ProcessName".
Definition Window_process_path (self : WindowHandle.t) := Window__get self "ProcessPath".

Definition Window_is_minimized (self : WindowHandle.t) : M World PyVal :=
  let* min_max := Window__get self "MinMax" in
  if negb (is_VNone min_max) then ret (VBool (eq_int min_max (-1))) else ret VNone.

Definition Window_is_maximized (self : WindowHandle.t) : M World PyVal :=
  let* min_max := Window__get self "MinMax" in
  if negb (is_VNone min_max) then ret (VBool (eq_int min_max 1)) else ret VNone.

(** *** [class Control] *)

Definition CB_GETCOUNT : Z := 0x146.
Definition LB_GETCOUNT : Z := 0x18B.

Definition Control_command (subcmd : string) (self : WindowHandle.t) : M World PyVal :=
  self__call self "Control" ([VStr subcmd; VStr ""; VStr ""] ++ WindowHandle__include self)%list
    true PyNone true.

Definition Control_check := Control_command "Check".
Definition Control_enable := Control_command "Enable".
Definition Control_disable := Control_command "Disable".
Definition Control_hide := Control_command "Hide".
Definition Control_show := Control_command "Show".


Definition Control_is_checked (self : WindowHandle.t) : M World PyVal :=
  let* checked := Control__get self "Checked" "" in
  if negb (is_VNone checked) then ret (VBool (truthy checked)) else ret VNone.

Definition Control_line_count (self : WindowHandle.t) := Control__get self "LineCount" "".

(** [v.lower()] for a value that should be a string. *)
Definition py_lower (v : PyVal) : M World string :=
  match v with
  | VStr s => ret (lower s)
  | _ => raise (AttributeError "lower")
  end.

Definition Control__count_list_items (self : WindowHandle.t) (option : string) : M World PyVal :=
  except_Error (Control__get self "List" ("Count " +:+ option))
    (fun message =>
       if eq_int message 1 then
         let* class_name0 := BaseWindow_class_name self in
         let* l := py_lower class_name0 in
         if negb (contains "syslistview32" l) then ret VNone
         else raise (Error (VStr "there was a problem getting list items"))
       else raise (Error message)).

Definition Control_list_item_count (self : WindowHandle.t) : M World PyVal :=
  let* class_name0 := BaseWindow_class_name self in
  if is_VNone class_name0 then ret VNone
  else
    let* class_name_lower := py_lower class_name0 in
    if contains "syslistview32" class_name_lower then Control__count_list_items self ""
    else if contains "combo" class_name_lower
    then BaseWindow_send_message self (VInt CB_GETCOUNT) (VInt 0) (VInt 0) (VInt 5)
    else if contains "list" class_name_lower
    then BaseWindow_send_message self (VInt LB_GETCOUNT) (VInt 0) (VInt 0) (VInt 5)
    else ret VNone.

Definition Control_choose_item_index (self : WindowHandle.t) (index0 : PyVal) : M World PyVal :=
  let* i := lift_outcome (py_int index0) in
  let* index :=
    (if i <? 0
     then let* count := Control_list_item_count self in
          lift_outcome (py_add_int count i)
     else ret (VInt i)) in
  except_Error
    (let* n := lift_outcome (py_add_int index 1) in
     self__call self "Control" [VStr "Choose"; n] true PyNone true ;;
     ret VNone)
    (fun message =>
       if eq_int message 1 then
         let* count := Control_list_item_count self in
         let* n := lift_outcome (py_add_int index 1) in
         let* _ := lift_outcome (py_lt_num count n) in
         raise (Error message)
       else raise (Error message)).

(** *** More of [class Window] *)

Definition Window_is_restored (self : WindowHandle.t) : M World PyVal :=
  let* min_max := Window__get self "MinMax" in
  if negb (is_VNone min_max) then ret (VBool (eq_int min_max 0)) else ret VNone.

(** The setters of [is_minimized] and [is_maximized]. *)
Definition Window_set_is_minimized (self : WindowHandle.t) (value : PyVal) : M World PyVal :=
  if truthy value then Window_minimize self else Window_restore self.

Definition Window_set_is_maximized (self : WindowHandle.t) (value : PyVal) : M World PyVal :=
  if truthy value then Window_maximize self else Window_restore self.

Definition Window_toggle_minimized (self : WindowHandle.t) : M World PyVal :=
  let* is_minimized := Window_is_minimized self in
  if negb (is_VNone is_minimized)
  then Window_set_is_minimized self (VBool (py_not is_minimized)) ;; ret VNone
  else ret VNone.

Definition Window_toggle_maximized (self : WindowHandle.t) : M World PyVal :=
  let* is_maximized := Window_is_maximized self in
  if negb (is_VNone is_maximized)
  then Window_set_is_maximized self (VBool (py_not is_maximized)) ;; ret VNone
  else ret VNone.

(** [Control(control_id)] for a value the channel returned. *)
Definition Control_from (control_id : PyVal) : M World WindowHandle.t :=
  match control_id with
  | VInt z => ret (Control z)
  | _ => raise (OutsideModel "control id is not an int")
  end.

Definition Window_get_control (self : WindowHandle.t) (class_or_text : PyVal)
    (match_ : tri string) : M World WindowHandle.t :=
  except_Error
    (let* control_id :=
       self__call self "ControlGet"
         ([VStr "Hwnd"; VStr ""; class_or_text] ++ WindowHandle__include self)
         true match_ false in
     if is_VNone control_id then ret (Control 0)
     else Control_from control_id)
    (fun message =>
       if eq_int message 1 then ret (Control 0)
       else raise (Error message)).

Definition Window_get_focused_control (self : WindowHandle.t) : M World WindowHandle.t :=
  let* found :=
    except_Error
      (let* class_name0 := self__call self "ControlGetFocus" (WindowHandle__include self)
                             true PyNone false in
       if is_VNone class_name0 then ret None
       else ret (Some class_name0))
      (fun message =>
         if eq_int message 1 then ret None
         else raise (Error message)) in
  match found with
  | None => ret (Control 0)
  | Some class_name0 => Window_get_control self class_name0 (Val "startswith")
  end.

(** The setter of [opacity]. *)
Definition Window_set_opacity (self : WindowHandle.t) (value : PyVal) : M World PyVal :=
  let* ahk_value :=
    (if is_VNone value then ret (VStr "Off")
     else
       let* ok := lift_outcome (between 0 255 value) in
       if negb ok
       then raise (ValueError VNone "opacity value must be between 0 and 255")
       else let* z := lift_outcome (py_int value) in ret (VInt z)) in
  BaseWindow__set self "Transparent" ahk_value ;;
  ret VNone.

(** *** More of [class Control] *)

(** What the list getters return: [None], a list of strings, or a list of
    rows. *)
Inductive Items :=
| ItemsNone
| ItemsFlat (items : list string)
| ItemsRows (rows : list (list string)).

Definition Control__split_list_items (s : string) : list (list string) :=
  if String.eqb s "" then []
  else map (split tab) (split newline s).

(** [items.split("\n")] and [self._split_list_items(items)] for a value the
    channel returned. *)
Definition py_split_lines (items : PyVal) : M World (list string) :=
  match items with
  | VStr s => ret (split newline s)
  | _ => raise (AttributeError "split")
  end.

Definition py_split_rows (items : PyVal) : M World (list (list string)) :=
  match items with
  | VStr s => ret (Control__split_list_items s)
  | _ => raise (AttributeError "split")
  end.

Definition Control_list_view_column_count (self : WindowHandle.t) : M World PyVal :=
  Control__count_list_items self "Col".

Definition Control_selected_list_item_count (self : WindowHandle.t) : M World PyVal :=
  Control__count_list_items self "Selected".

(** [f"Col{column + 1}"]; the text of a float is outside the model. *)
Definition col_option (column : PyVal) : M World string :=
  let* n := lift_outcome (py_add_int column 1) in
  match n with
  | VInt z => ret ("Col" +:+ str_of_Z z)
  | _ => raise (OutsideModel "text of a float")
  end.

Definition Control_get_list_items (self : WindowHandle.t) (selected focused : bool)
    (column0 : option Z) : M World Items :=
  let* column :=
    match column0 with
    | None => ret None
    | Some c =>
        if c <? 0
        then let* count := Control_list_view_column_count self in
             let* v := lift_outcome (py_add_int count c) in
             ret (Some v)
        else ret (Some (VInt c))
    end in
  let* col :=
    match column with
    | None => ret []
    | Some v => let* o := col_option v in ret [o]
    end in
  let options :=
    (if selected then ["Selected"] else []) ++ (if focused then ["Focused"] else []) ++ col in
  let str_options := String.concat " " options in
  except_Error
    (let* items := Control__get self "List" str_options in
     if negb (is_VNone items) then
       match column with
       | Some _ => let* l := py_split_lines items in ret (ItemsFlat l)
       | None => let* rows := py_split_rows items in ret (ItemsRows rows)
       end
     else ret ItemsNone)
    (fun message =>
       if eq_int message 1 then
         let* class_name0 := BaseWindow_class_name self in
         let* l := py_lower class_name0 in
         if negb (contains "syslistview32" l) then ret ItemsNone
         else
           match column with
           | Some v =>
               let* count := Control_list_view_column_count self in
               let* n := lift_outcome (py_add_int v 1) in
               let* out_of_range := lift_outcome (py_lt_num count n) in
               if out_of_range then raise (Error (VStr "column index out of range"))
               else raise (Error (VStr "there was a problem getting list items"))
           | None => raise (Error (VStr "there was a problem getting list items"))
           end
       else raise (Error message)).

Definition Control_selected_list_items (self : WindowHandle.t) : M World Items :=
  Control_get_list_items self true false None.

Definition Control_focused_list_item (self : WindowHandle.t) : M World Items :=
  Control_get_list_items self false true None.

Definition Control_list_items (self : WindowHandle.t) : M World Items :=
  let* items :=
    except_Error (Control__get self "List" "")
      (fun message =>
         if eq_int message 1
         then raise (Error (VStr "there was a problem getting list items"))
         else raise (Error message)) in
  if negb (is_VNone items) then
    let* class_name0 := BaseWindow_class_name self in
    let* l := py_lower class_name0 in
    if contains "syslistview32" l
    then let* rows := py_split_rows items in ret (ItemsRows rows)
    else let* lines := py_split_lines items in ret (ItemsFlat lines)
  else ret ItemsNone.

End Commands.

End window.
Export window.

(** ** settings.py: [_set_coord_mode] *)

Module coord.

Definition COORD_TARGETS : list string := ["tooltip"; "pixel"; "mouse"; "caret"; "menu"].
Definition COORD_MODES : list string := ["screen"; "window"; "client"].

(** [x not in names] for a set of strings: a dict is unhashable. *)
Definition not_in (x : PyVal) (names : list string) : Outcome bool :=
  match x with
  | VStr s => Ok (negb (existsb (String.eqb s) names))
  | VDict _ => Raise (TypeError "unhashable type: 'dict'")
  | _ => Ok true
  end.

Definition _set_coord_mode `{Backend} (target relative_to : PyVal) : M World unit :=
  let* bad_target := lift_outcome (not_in target COORD_TARGETS) in
  if bad_target then raise (ValueError target "is not a valid coord target")
  else
    let* bad_mode := lift_outcome (not_in relative_to COORD_MODES) in
    if bad_mode then raise (ValueError relative_to "is not a valid coord mode")
    else ahk_call "CoordMode" [target; relative_to] ;; ret tt.

End coord.

(** ** ahk/keys.py

    [_ahk.call] is the command channel.  [hotkey] takes a callable, which
    the values of the embedding do not include, and is left out; the
    numeric options and timeouts are ints, as annotated. *)

Module keys.

Section Commands.
Context `{Backend}.

Definition get_key_state (key_name mode : PyVal) : M World PyVal :=
  ahk_call "GetKeyState" [key_name; mode].

(** [class Hotkey]. *)
Record Hotkey := { key_name : string }.

Definition Hotkey_enable (self : Hotkey) : M World PyVal :=
  ahk_call "Hotkey" [VStr (key_name self); VStr "On"].

Definition Hotkey_disable (self : Hotkey) : M World PyVal :=
  ahk_call "Hotkey" [VStr (key_name self); VStr "Off"].

Definition Hotkey_toggle (self : Hotkey) : M World PyVal :=
  ahk_call "Hotkey" [VStr (key_name self); VStr "Toggle"].

(** The options [set_options] collects; [buffer is False] and
    [buffer is True] hold of the two booleans only. *)
Definition hotkey_options (buffer : PyVal) (priority max_threads input_level : option Z)
  : list string :=
  (match buffer with
   | VBool false => ["B0"]
   | VBool true => ["B"]
   | _ => []
   end) ++
  (match priority with Some p => ["P" +:+ str_of_Z p] | None => [] end) ++
  (match max_threads with Some t => ["T" +:+ str_of_Z t] | None => [] end) ++
  (match input_level with Some i => ["I" +:+ str_of_Z i] | None => [] end).

Definition Hotkey_set_options (self : Hotkey) (buffer : PyVal)
    (priority max_threads input_level : option Z) : M World unit :=
  let options := hotkey_options buffer priority max_threads input_level in
  let option_str := String.concat "" options in
  if negb (String.eqb option_str "")
  then ahk_call "Hotkey" [VStr (key_name self); VStr ""; VStr option_str] ;; ret tt
  else ret tt.

Definition _key_wait (key_name0 : string) (down logical_state : bool) (timeout : option Z)
  : M World bool :=
  let options :=
    (if down then ["D"] else []) ++
    (if logical_state then ["L"] else []) ++
    (match timeout with Some t => ["T" +:+ str_of_Z t] | None => [] end) in
  let* timed_out := ahk_call "KeyWait" [VStr key_name0; VStr (String.concat "" options)] in
  ret (py_not timed_out).

Definition key_wait_pressed (key_name0 : string) (logical_state : bool) (timeout : option Z)
  : M World bool :=
  _key_wait key_name0 true logical_state timeout.

Definition key_wait_released (key_name0 : string) (logical_state : bool) (timeout : option Z)
  : M World bool :=
  _key_wait key_name0 false logical_state timeout.

Definition send (keys0 : PyVal) : M World unit :=
  ahk_call "Send" [keys0] ;; ret tt.

Definition send_level (level : PyVal) : M World unit :=
  let* ok := lift_outcome (between 0 100 level) in
  if negb ok then raise (ValueError VNone "level must be between 0 and 100")
  else
    let* z := lift_outcome (py_int level) in
    ahk_call "SendLevel" [VInt z] ;; ret tt.

Definition send_mode (mode : PyVal) : M World unit :=
  ahk_call "SendMode" [mode] ;; ret tt.

End Commands.

End keys.

(** ** Predicates and concrete instances used by the statements *)

(** A scoped body that changes no object other than the one it is given. *)
Definition changes_only_its_argument {A} (body : nat -> settings.SM A) : Prop :=
  forall r q s st0,
    q <> r ->
    settings.objs st0 !! q = Some s ->
    settings.objs (snd (body r st0)) !! q = Some s.

(** The merge the refining methods are specified by: an argument left at
    [UNSET] keeps the field of the receiver, any other argument replaces
    it. *)
Definition merge_field {A} (argument prior : tri A) : tri A :=
  if is_unset argument then prior else argument.

Definition merged (F : Windows) (a : FilterArgs) : Windows := {|
  title := merge_field (a_title a) (title F);
  class_name := merge_field (a_class_name a) (class_name F);
  id := merge_field (a_id a) (id F);
  pid := merge_field (a_pid a) (pid F);
  exe := merge_field (a_exe a) (exe F);
  text := merge_field (a_text a) (text F);
  exclude_title := exclude_title F;
  exclude_text := exclude_text F;
  hidden_windows := hidden_windows F;
  hidden_text := hidden_text F;
  title_mode := merge_field (a_match a) (title_mode F);
  text_mode := text_mode F
|}.

(** The [match] argument is one [filter] accepts: omitted, or a mode. *)
Definition acceptable_match (a : FilterArgs) : bool :=
  is_unset (a_match a) || in_modes (a_match a) TITLE_MATCH_MODES.

(** Every filterable field of a filter is unconstrained. *)
Definition unconstrained (F : Windows) : Prop :=
  title F = Unset /\ class_name F = Unset /\ id F = Unset /\ pid F = Unset /\
  exe F = Unset /\ text F = Unset /\ exclude_title F = Unset /\ exclude_text F = Unset.

(** A text field that contributes nothing to the query. *)
Definition blank (x : tri string) : bool :=
  match x with
  | Unset => true
  | Val s => String.eqb s ""
  | PyNone => false
  end.

(** The filters whose query is four empty strings. *)
Definition blank_query (F : Windows) : bool :=
  blank (title F) && is_unset (class_name F) && is_unset (id F) && is_unset (pid F) &&
  is_unset (exe F) && blank (text F) && blank (exclude_title F) && blank (exclude_text F).

(** The modes of a filter are ones [_call] accepts. *)
Definition valid_modes (F : Windows) : Prop :=
  in_modes (title_mode F) TITLE_MATCH_MODES = true /\
  existsb (String.eqb (text_mode F)) TEXT_MATCH_MODES = true.

(** The commands that only configure AutoHotkey. *)
Definition config_commands : list string :=
  ["DetectHiddenWindows"; "DetectHiddenText"; "SetTitleMatchMode"; "SetWinDelay";
   "SetControlDelay"].

Definition is_config (c : Call) : bool := existsb (String.eqb (cmd c)) config_commands.

(** AutoHotkey accepts every configuration command. *)
Definition configures_quietly `{Backend} : Prop :=
  forall c a s, existsb (String.eqb c) config_commands = true ->
    exists v s', run_command {| cmd := c; args := a |} s = (Ok v, s').


(** The settings of the thread can be read and the delay [f] converts to
    milliseconds. *)
Definition delay_ready `{Backend} (f : settings.field) (w : World) : Prop :=
  exists S ms,
    settings.ambient (store w) = Some S /\
    settings.optional_ms (settings.getattr S f) = Ok ms.

(** The coordinate [WinMove] gives a window for an argument, where the
    coordinate was [old]: the number, for an int and for a text that
    spells one, which AutoHotkey reads as the number; [old] for a blank,
    and only for a blank.  Nothing is assumed about any other argument
    ([None]). *)
Definition moved_to (v : PyVal) (old : Z) : option Z :=
  match v with
  | VInt z => Some z
  | VStr s => if String.eqb s "" then Some old
              else option_map Z.of_int (NilZero.int_of_string s)
  | _ => None
  end.

(** An argument of [move] that is given as an int, or omitted. *)
Definition int_or_none (v : option Z) : PyVal :=
  match v with
  | Some z => VInt z
  | None => VNone
  end.

(** The coordinate after a [move]: the one given, or the one of before. *)
Definition given_or (v : option Z) (old : Z) : Z :=
  match v with
  | Some z => z
  | None => old
  end.

Definition rect_dict (r : Z * Z * Z * Z) : PyVal :=
  let '(x, y, width, height) := r in
  VDict [("X", VInt x); ("Y", VInt y); ("Width", VInt width); ("Height", VInt height)].

(** What the code relies on AutoHotkey to do with the rectangle of a
    window: [rect_of] reads the rectangle of window [n] off the state of
    AutoHotkey, configuration commands leave it alone, [WinGetPos] reports
    it, and [WinMove] gives the window the coordinates [moved_to] reads
    off its arguments: a number sets a coordinate, also the number 0 and
    a text that spells a number, and a blank keeps it. *)
Record moves_windows `{Backend} (rect_of : ahk_state -> Z -> option (Z * Z * Z * Z)) : Prop := {
  config_keeps_rects :
    forall c a s, existsb (String.eqb c) config_commands = true ->
      exists v s', run_command {| cmd := c; args := a |} s = (Ok v, s') /\
                   forall n, rect_of s' n = rect_of s n;
  get_pos_reports :
    forall s n r, rect_of s n = Some r ->
      run_command {| cmd := "WinGetPos"; args := WindowHandle__include (Window n) |} s =
        (Ok (rect_dict r), s);
  move_sets :
    forall s n r x y width height x' y' width' height',
      rect_of s n = Some r ->
      moved_to x r.1.1.1 = Some x' ->
      moved_to y r.1.1.2 = Some y' ->
      moved_to width r.1.2 = Some width' ->
      moved_to height r.2 = Some height' ->
      exists v s',
        run_command {| cmd := "WinMove";
                       args := WindowHandle__include (Window n) ++ [x; y; width; height] |} s =
          (Ok v, s') /\
        rect_of s' n = Some (x', y', width', height')
}.

(** A simulated desktop with one window, number 7, which is never active
    and never closes; every wait on it ends by its timeout.  [WinMove]
    reads its arguments as [moved_to] says and fails on an argument that
    is neither a number nor blank. *)
Module desk.

Record Desk := {
  rect : Z * Z * Z * Z;
  style : Z
}.

Definition the_window : string := "ahk_id 7".

Definition names (t : PyVal) : bool := eq_str t the_window.

Definition nth_arg (a : list PyVal) (i : nat) : PyVal :=
  match a !! i with Some v => v | None => VStr "" end.

Definition run (c : Call) (d : Desk) : Outcome PyVal * Desk :=
  let named name := String.eqb (cmd c) name in
  let a := nth_arg (args c) in
  if named "WinGetPos" then
    (Ok (if names (a 0%nat) then rect_dict (rect d)
         else VDict [("X", VStr ""); ("Y", VStr ""); ("Width", VStr ""); ("Height", VStr "")]),
     d)
  else if named "WinMove" then
    if names (a 0%nat) then
      let '(x, y, width, height) := rect d in
      match moved_to (a 2%nat) x, moved_to (a 3%nat) y,
            moved_to (a 4%nat) width, moved_to (a 5%nat) height with
      | Some x', Some y', Some width', Some height' =>
          (Ok (VStr ""), {| rect := (x', y', width', height'); style := style d |})
      | _, _, _, _ => (Raise (Error (VInt 1)), d)
      end
    else (Ok (VStr ""), d)
  else if named "WinExist" then (Ok (VInt (if names (a 0%nat) then 7 else 0)), d)
  else if named "WinActive" then (Ok (VInt 0), d)
  else if named "WinGet" then
    (Ok (if eq_str (a 0%nat) "Style" && names (a 1%nat) then VInt (style d) else VStr ""), d)
  else if named "WinWait" || named "WinWaitActive" || named "WinWaitNotActive" || named "WinWaitClose"
  then (Ok (VInt 1), d)
  else (Ok (VStr ""), d).

#[export] Instance backend : Backend := {|
  ahk_state := Desk;
  run_command := run
|}.

(** A stand-in for the hash of the interpreter. *)
Definition code (v : PyVal) : Z :=
  match v with
  | VInt z => z
  | VBool b => if b then 1 else 0
  | VStr s => Z.of_nat (String.length s)
  | _ => 0
  end.

#[export] Instance interp : Interp := {|
  hash_tuple := fun t => - (1 + fold_right (fun v acc => code v + 31 * acc) 0 t)
|}.

Definition start : World := {|
  ahk := {| rect := (0, 0, 640, 480); style := WS_VISIBLE |};
  calls := [];
  store := settings.Store_init
|}.

Definition rect_of (d : Desk) (n : Z) : option (Z * Z * Z * Z) :=
  if n =? 7 then Some (rect d) else None.

End desk.

(** AutoHotkey accepts every configuration command in a state where [P]
    holds, and [P] holds afterwards. *)
Definition config_preserves `{Backend} (P : ahk_state -> Prop) : Prop :=
  forall c a s, existsb (String.eqb c) config_commands = true -> P s ->
    exists v s', run_command {| cmd := c; args := a |} s = (Ok v, s') /\ P s'.

(** From [w] to [w'] only configuration commands were sent, [P] holds of
    AutoHotkey in [w'], and the settings of the thread read the same. *)
Definition configured `{Backend} (P : ahk_state -> Prop) (w w' : World) : Prop :=
  P (ahk w') /\
  settings.ambient (store w') = settings.ambient (store w) /\
  exists sent, calls w' = calls w ++ sent /\ forallb is_config sent = true.


(** The query [get_active] sends. *)
Definition active_query (F : Windows) : list string :=
  if blank_query F then ["A"; ""; ""; ""] else Windows__query F.

(** The delay a handle sets before a command: [Window._set_delay] reads
    [win_delay], [Control._set_delay] reads [control_delay]. *)
Definition delay_field (k : HandleClass) : settings.field :=
  match k with
  | WindowC => settings.f_win_delay
  | ControlC => settings.f_control_delay
  end.

(** Concrete filters used to instantiate the statements. *)
Definition with_title (t : tri string) : FilterArgs := {|
  a_title := t; a_class_name := Unset; a_id := Unset; a_pid := Unset;
  a_exe := Unset; a_text := Unset; a_match := Unset
|}.

Definition with_class_name (c : tri string) : FilterArgs := {|
  a_title := Unset; a_class_name := c; a_id := Unset; a_pid := Unset;
  a_exe := Unset; a_text := Unset; a_match := Unset
|}.

(** [windows.filter(title=None)] and [windows.filter(title="")]. *)
Definition no_title : Windows := merged windows (with_title PyNone).
Definition empty_title : Windows := merged windows (with_title (Val "")).

(** [windows.filter(title="Untitled").filter(class_name="Notepad")] and
    [windows.filter(title="Untitled", class_name="Notepad")]. *)
Definition notepad_in_two_steps : Windows :=
  merged (merged windows (with_title (Val "Untitled"))) (with_class_name (Val "Notepad")).

Definition notepad_at_once : Windows :=
  merged windows {|
    a_title := Val "Untitled"; a_class_name := Val "Notepad"; a_id := Unset;
    a_pid := Unset; a_exe := Unset; a_text := Unset; a_match := Unset
  |}.

(** The character [c] occurs in [s]. *)
Definition occurs (c : ascii) (s : string) : Prop := In c (String.list_ascii_of_string s).

(** [sep.join(pieces)] for a separator of one character. *)
Definition join (sep : ascii) (pieces : list string) : string :=
  String.concat (String sep EmptyString) pieces.

(** The arguments of two [filter] calls in a row, as one call: a parameter
    the second call gives replaces that of the first. *)
Definition then_args (a b : FilterArgs) : FilterArgs := {|
  a_title := merge_field (a_title b) (a_title a);
  a_class_name := merge_field (a_class_name b) (a_class_name a);
  a_id := merge_field (a_id b) (a_id a);
  a_pid := merge_field (a_pid b) (a_pid a);
  a_exe := merge_field (a_exe b) (a_exe a);
  a_text := merge_field (a_text b) (a_text a);
  a_match := merge_field (a_match b) (a_match a)
|}.

(** [m] followed by [f], for functions that return or raise. *)
Definition and_then {A B} (m : Outcome A) (f : A -> Outcome B) : Outcome B :=
  match m with
  | Ok a => f a
  | Raise e => Raise e
  end.

(** The argument [_set_title_match_mode] sends for a valid mode. *)
Definition title_mode_arg (m : tri string) : PyVal :=
  match m with
  | Val "startswith" => VInt 1
  | Val "contains" => VInt 2
  | Val "exact" => VInt 3
  | _ => VStr "regex"
  end.

Definition sent (c : string) (a : list PyVal) : Call := {| cmd := c; args := a |}.

(** The configuration a filter sends before a command. *)
Definition filter_setup (F : Windows) : list Call :=
  [sent "DetectHiddenWindows" [on_off (hidden_windows F)]] ++
  (if negb (is_unset (text F)) || negb (is_unset (exclude_text F))
   then [sent "DetectHiddenText" [on_off (hidden_text F)]]
   else []) ++
  [sent "SetTitleMatchMode" [title_mode_arg (title_mode F)];
   sent "SetTitleMatchMode" [VStr (text_mode F)]].

(** The configuration a handle sends before a command. *)
Definition handle_setup (hidden_windows0 : bool) (title_mode0 : tri string) : list Call :=
  [sent "DetectHiddenWindows" [on_off hidden_windows0]] ++
  (if is_none title_mode0 then []
   else [sent "SetTitleMatchMode" [title_mode_arg title_mode0]]).

Definition delay_command (k : HandleClass) : string :=
  match k with
  | WindowC => "SetWinDelay"
  | ControlC => "SetControlDelay"
  end.

(** The delay [f] of the settings of the thread is [ms] milliseconds. *)
Definition delay_is `{Backend} (f : settings.field) (ms : Z) (w : World) : Prop :=
  exists S, settings.ambient (store w) = Some S /\
            settings.optional_ms (settings.getattr S f) = Ok ms.

(** A simulated AutoHotkey without state: a command named in the table
    gets the outcome the table gives, any other command an empty
    string. *)
Module script.

Definition run (table : list (string * Outcome PyVal)) (c : Call) (s : unit)
  : Outcome PyVal * unit :=
  match List.find (fun row => String.eqb (fst row) (cmd c)) table with
  | Some row => (snd row, s)
  | None => (Ok (VStr ""), s)
  end.

Definition backend (table : list (string * Outcome PyVal)) : Backend := {|
  ahk_state := unit;
  run_command := run table
|}.

Definition start (table : list (string * Outcome PyVal)) : @World (backend table) :=
  @Build_World (backend table) tt [] settings.Store_init.

(** Two windows, 7 above 9. *)
Definition two_windows : list (string * Outcome PyVal) :=
  [("WinGet", Ok (VDict [("1", VInt 7); ("2", VInt 9)]))].

(** The control a command is sent to is gone. *)
Definition control_gone : list (string * Outcome PyVal) :=
  [("ControlGet", Raise (Error (VInt 1))); ("WinExist", Ok (VInt 0))].

(** The window a message is sent to is gone. *)
Definition window_gone : list (string * Outcome PyVal) :=
  [("SendMessage", Raise (Error (VStr "FAIL"))); ("WinExist", Ok (VInt 0))].

End script.

(** A context in which no settings were set. *)
Definition new_context : settings.Store :=
  {| settings.objs := [settings.Settings_init]; settings.current := None |}.

(** * Theorems *)

Section SettingsFacts.
Import settings.

Lemma deref_some (st : Store) (r : nat) (s : Settings) :
  objs st !! r = Some s -> deref r st = (Ok s, st).
Proof. intros E. unfold deref. now rewrite E. Qed.

Lemma copy_some (st : Store) (r : nat) (s : Settings) :
  objs st !! r = Some s ->
  copy r st = (Ok (length (objs st)), {| objs := objs st ++ [s]; current := current st |}).
Proof. intros E. unfold copy, bind. now rewrite (deref_some _ _ _ E). Qed.

Lemma get_settings_set (st : Store) (p : nat) :
  current st = Some p -> get_settings st = (Ok p, st).
Proof. intros E. unfold get_settings. now rewrite E. Qed.

Lemma get_settings_unset (st : Store) (d : Settings) :
  current st = None ->
  objs st !! default_settings = Some d ->
  get_settings st =
    (Ok (length (objs st)),
     {| objs := objs st ++ [d]; current := Some (length (objs st)) |}).
Proof.
  intros E D. unfold get_settings. rewrite E.
  unfold bind. now rewrite (copy_some _ _ _ D).
Qed.

Lemma lookup_snoc_old {A} (l : list A) (x y : A) (i : nat) :
  l !! i = Some y -> (l ++ [x]) !! i = Some y.
Proof.
  intros E. rewrite lookup_app_l; [exact E|]. now apply lookup_lt_Some in E.
Qed.

Lemma lookup_snoc_new {A} (l : list A) (x : A) :
  (l ++ [x]) !! length l = Some x.
Proof. apply list_lookup_middle. reflexivity. Qed.

Lemma lookup_lt_ne {A} (l : list A) (y : A) (i : nat) (k : nat) :
  l !! i = Some y -> i <> (length l + k)%nat.
Proof. intros E. apply lookup_lt_Some in E. lia. Qed.

(** Assignments to the scoped copy leave every other object alone. *)
Lemma exec_changes_only_its_argument (body : list stmt) :
  changes_only_its_argument (exec body).
Proof.
  induction body as [|[f v|e] rest IH]; intros r q s st0 Hne Hq; simpl.
  - exact Hq.
  - unfold bind, store_attr, bind, deref.
    destruct (objs st0 !! r) as [sr|] eqn:Er; simpl; [|exact Hq].
    apply IH; [exact Hne|]. simpl.
    rewrite list_lookup_insert_ne; [exact Hq|congruence].
  - exact Hq.
Qed.


Ltac run_steps :=
  unfold with_local_settings, local_settings, __init__, __enter__, activate,
    try_finally, __exit__, bind, ret, set_settings.

Lemma restored_after {A} (body : nat -> SM A) (st st_in : Store) (S : Settings)
    (scoped prior : nat) (c : option nat) (r : Outcome A * Store) :
  r = (fst (body scoped st_in),
       {| objs := objs (snd (body scoped st_in)); current := Some prior |}) ->
  changes_only_its_argument body ->
  prior <> scoped ->
  objs st_in !! prior = Some S ->
  current st_in = Some scoped ->
  objs st !! scoped = None ->
  (forall p, c = Some p -> p = prior) ->
  ambient (snd r) = Some S /\
  (forall p, c = Some p ->
             current (snd r) = Some p /\ objs (snd r) !! p = Some S) /\
  (exists scoped st_in,
      current st_in = Some scoped /\
      objs st !! scoped = None /\
      fst r = fst (body scoped st_in)).
Proof.
  intros -> Hbody Hne Hprior Hcur Hfresh Hsame.
  pose proof (Hbody scoped prior S st_in Hne Hprior) as Hp.
  unfold ambient. simpl. split; [exact Hp|split].
  - intros p Ep. rewrite (Hsame p Ep). now split.
  - exists scoped, st_in. now repeat split.
Qed.

(** C6: a [with local_settings(...)] block whose body changes only the
    scoped copy ends with the ambient settings equal to their value on
    entry, and with the very object that was current on entry current again
    and unchanged; this holds whether the body returns or raises, and the
    outcome of the block is the outcome of the body, which ran with a fresh
    scoped copy current. *)
Theorem local_settings_restores_ambient {A} (settings0 : option nat)
    (body : nat -> SM A) (st : Store) (S : Settings) :
  ambient st = Some S ->
  (forall x, settings0 = Some x -> is_Some (objs st !! x)) ->
  changes_only_its_argument body ->
  let r := with_local_settings settings0 body st in
  ambient (snd r) = Some S /\
  (forall p, current st = Some p ->
             current (snd r) = Some p /\ objs (snd r) !! p = Some S) /\
  (exists scoped st_in,
      current st_in = Some scoped /\
      objs st !! scoped = None /\
      fst r = fst (body scoped st_in)).
Proof.
  intros Hamb Harg Hbody r.
  unfold ambient in Hamb.
  set (n := length (objs st)).
  destruct (current st) as [p|] eqn:Ecur; destruct settings0 as [x|].
  - (* current set, explicit settings *)
    destruct (Harg x eq_refl) as [sx Ex].
    apply (restored_after body st {| objs := objs st ++ [sx]; current := Some n |} S n p).
    + subst r. run_steps. rewrite (copy_some _ _ _ Ex). cbn.
      rewrite Ecur. cbn. fold n. destruct (body _ _) as [[a|e] st3]; reflexivity.
    + exact Hbody.
    + apply (lookup_lt_ne _ _ _ 0%nat) in Hamb. unfold n. lia.
    + simpl. now apply lookup_snoc_old.
    + reflexivity.
    + apply lookup_ge_None. unfold n. lia.
    + intros p' Ep. congruence.
  - (* current set, a copy of the current settings *)
    apply (restored_after body st {| objs := objs st ++ [S]; current := Some n |} S n p).
    + subst r. run_steps. unfold get_settings. rewrite Ecur. cbn.
      rewrite (copy_some _ _ _ Hamb). cbn. rewrite Ecur. cbn.
      fold n. destruct (body _ _) as [[a|e] st3]; reflexivity.
    + exact Hbody.
    + apply (lookup_lt_ne _ _ _ 0%nat) in Hamb. unfold n. lia.
    + simpl. now apply lookup_snoc_old.
    + reflexivity.
    + apply lookup_ge_None. unfold n. lia.
    + intros p' Ep. congruence.
  - (* current unset, explicit settings: the defaults are copied on entry *)
    destruct (Harg x eq_refl) as [sx Ex].
    apply (restored_after body st
             {| objs := (objs st ++ [sx]) ++ [S]; current := Some n |} S n (n + 1)%nat).
    + subst r. run_steps. rewrite (copy_some _ _ _ Ex). cbn.
      rewrite (get_settings_unset _ S); [|exact Ecur|simpl; now apply lookup_snoc_old].
      cbn. rewrite length_app. cbn. fold n.
      destruct (body _ _) as [[a|e] st3]; reflexivity.
    + exact Hbody.
    + lia.
    + simpl. replace (n + 1)%nat with (length (objs st ++ [sx])).
      * apply lookup_snoc_new.
      * rewrite length_app. reflexivity.
    + reflexivity.
    + apply lookup_ge_None. unfold n. lia.
    + intros p' Ep. discriminate Ep.
  - (* current unset, no argument: the defaults are copied, then the copy *)
    apply (restored_after body st
             {| objs := (objs st ++ [S]) ++ [S]; current := Some (n + 1)%nat |}
             S (n + 1)%nat n).
    + subst r. run_steps.
      rewrite (get_settings_unset _ S); [|exact Ecur|exact Hamb]. cbn.
      fold n.
      rewrite (copy_some _ n S); [|simpl; apply lookup_snoc_new]. cbn.
      rewrite length_app. cbn. fold n.
      destruct (body _ _) as [[a|e] st3]; reflexivity.
    + exact Hbody.
    + lia.
    + simpl. apply lookup_snoc_old. apply lookup_snoc_new.
    + reflexivity.
    + apply lookup_ge_None. unfold n. lia.
    + intros p' Ep. discriminate Ep.
Qed.

Lemma local_settings_restores_ambient_witness :
  let body := exec [Assign f_win_delay (VInt 0); RaiseStmt NotImplementedError] in
  let r := with_local_settings None body Store_init in
  ambient (snd r) = Some Settings_init /\
  (forall p, current Store_init = Some p ->
             current (snd r) = Some p /\ objs (snd r) !! p = Some Settings_init) /\
  (exists scoped st_in,
      current st_in = Some scoped /\
      objs Store_init !! scoped = None /\
      fst r = fst (body scoped st_in)).
Proof.
  intros body.
  apply (local_settings_restores_ambient None body Store_init Settings_init).
  - reflexivity.
  - intros x Hx. discriminate Hx.
  - apply exec_changes_only_its_argument.
Defined.

(** The block of the docstring of [local_settings], ended by an exception:
    the copy has the new delay, the settings of the thread are the old
    ones. *)
Example local_settings_run :
  with_local_settings None
    (exec [Assign f_win_delay (VInt 0); RaiseStmt NotImplementedError]) Store_init =
  (Raise NotImplementedError,
   {| objs := [Settings_init; setattr Settings_init f_win_delay (VInt 0)];
      current := Some default_settings |}).
Proof. reflexivity. Qed.

End SettingsFacts.

Section FilterFacts.
Context `{Backend} `{Interp}.

Lemma merge_field_default {A} (argument prior : tri A) :
  default argument prior = merge_field argument prior.
Proof. now destruct argument. Qed.

Lemma merged_all_unset (F : Windows) (a : FilterArgs) :
  all_unset a = true -> merged F a = F.
Proof.
  destruct a as [t c i p e x m], F. unfold all_unset, merged. simpl.
  destruct t, c, i, p, e, x, m; simpl; try discriminate. reflexivity.
Qed.

(** [filter] with an acceptable [match] is the merge. *)
Lemma filter_acceptable (F : Windows) (a : FilterArgs) :
  acceptable_match a = true -> Windows_filter F a = Ok (merged F a).
Proof.
  intros Ha. unfold Windows_filter.
  destruct (all_unset a) eqn:Eall.
  - now rewrite merged_all_unset.
  - unfold acceptable_match in Ha.
    apply orb_true_iff in Ha.
    replace (negb (is_unset (a_match a)) && negb (in_modes (a_match a) TITLE_MATCH_MODES))
      with false by (destruct Ha as [-> | ->]; simpl; now rewrite ?andb_false_r).
    unfold merged. now rewrite !merge_field_default.
Qed.

(** C3: [filter] with every parameter left at [UNSET] returns the receiver;
    in general it returns the receiver merged with the arguments that are
    not [UNSET], provided the [match] argument is acceptable; [exclude]
    merges the exclusion pair in the same way; the other refining methods
    change the one field they name.  The receiver is a value of a frozen
    dataclass: each method is a function of it and returns another value. *)
Theorem filter_merges_given_arguments (F : Windows) :
  Windows_filter F no_args = Ok F /\
  (forall a, all_unset a = true -> Windows_filter F a = Ok F) /\
  (forall a, acceptable_match a = true -> Windows_filter F a = Ok (merged F a)) /\
  (forall et ex,
     astuple (Windows_exclude F et ex) =
     <[6%nat := tri_val VStr (merge_field et (exclude_title F))]>
       (<[7%nat := tri_val VStr (merge_field ex (exclude_text F))]> (astuple F))) /\
  (forall b, astuple (Windows_include_hidden_windows F b) = <[8%nat := VBool b]> (astuple F)) /\
  astuple (Windows_exclude_hidden_windows F) = <[8%nat := VBool false]> (astuple F) /\
  (forall b, astuple (Windows_include_hidden_text F b) = <[9%nat := VBool b]> (astuple F)) /\
  astuple (Windows_exclude_hidden_text F) = <[9%nat := VBool false]> (astuple F) /\
  (forall b, astuple (Windows_match_text_slow F b) =
             <[11%nat := VStr (if b then "slow" else "fast")]> (astuple F)).
Proof.
  split; [reflexivity|]. split.
  { intros a Ha. unfold Windows_filter. now rewrite Ha. }
  split; [intros a; apply filter_acceptable|].
  split.
  { intros et ex. unfold Windows_exclude.
    destruct et, ex; reflexivity. }
  repeat split; try reflexivity.
  intros []; reflexivity.
Qed.

(** C4: a [match] argument that is neither omitted nor one of the four
    title match modes makes [filter] raise [ValueError], and a filtering
    method called with it raises before anything is sent to AutoHotkey (the
    world it leaves is the world it found); an omitted or valid [match]
    raises nothing. *)
Theorem filter_rejects_unknown_match (F : Windows) (a : FilterArgs) :
  if acceptable_match a
  then exists F', Windows_filter F a = Ok F'
  else
    let err := ValueError (tri_val VStr (a_match a)) "is not a valid title match mode" in
    Windows_filter F a = Raise err /\
    (forall A (func : Windows -> M World A) (w : World),
        filtering func F a w = (Raise err, w)) /\
    (forall w, Windows_exist F a w = (Raise err, w)) /\
    (forall timeout w, Windows_wait_active F a timeout w = (Raise err, w)) /\
    (forall timeout w, Windows_close_all F a timeout w = (Raise err, w)).
Proof.
  destruct (acceptable_match a) eqn:Ea.
  - exists (merged F a). now apply filter_acceptable.
  - unfold acceptable_match in Ea. apply orb_false_iff in Ea as [Eu Em].
    assert (Ef : Windows_filter F a =
                 Raise (ValueError (tri_val VStr (a_match a)) "is not a valid title match mode")).
    { unfold Windows_filter.
      replace (all_unset a) with false.
      - now rewrite Eu, Em.
      - unfold all_unset. rewrite Eu. now rewrite !andb_false_r. }
    assert (Hall : forall A (func : Windows -> M World A) (w : World),
               filtering func F a w =
               (Raise (ValueError (tri_val VStr (a_match a)) "is not a valid title match mode"), w)).
    { intros A func w. unfold filtering, bind, lift_outcome. now rewrite Ef. }
    cbv zeta. split; [exact Ef|]. split; [exact Hall|].
    repeat split; intros; apply Hall.
Qed.

Lemma tri_val_str_eq (x y : tri string) :
  py_eq (tri_val VStr x) (tri_val VStr y) = true -> x = y.
Proof.
  destruct x, y; simpl; try discriminate; try reflexivity.
  intros E. apply String.eqb_eq in E. now subst.
Qed.

Lemma tri_val_int_eq (x y : tri Z) :
  py_eq (tri_val VInt x) (tri_val VInt y) = true -> x = y.
Proof.
  destruct x, y; simpl; try discriminate; try reflexivity.
  destruct (a ?= a0) eqn:E; try discriminate.
  apply Z.compare_eq in E. now subst.
Qed.

Lemma bool_val_eq (x y : bool) : py_eq (VBool x) (VBool y) = true -> x = y.
Proof. destruct x, y; simpl; try discriminate; reflexivity. Qed.

Lemma str_val_eq (x y : string) : py_eq (VStr x) (VStr y) = true -> x = y.
Proof. simpl. apply String.eqb_eq. Qed.

(** Filters that compare equal have the same field values. *)
Lemma Windows_eq_true (F1 F2 : Windows) :
  Windows___eq__ F1 F2 = true -> F1 = F2.
Proof.
  destruct F1, F2. unfold Windows___eq__, astuple, tuple_eq.
  cbn [title class_name id pid exe text exclude_title exclude_text
       hidden_windows hidden_text title_mode text_mode].
  intros E.
  repeat (apply andb_true_iff in E as [? E]).
  f_equal; auto using tri_val_str_eq, tri_val_int_eq, bool_val_eq, str_val_eq.
Qed.

(** C8: two filters that compare equal derive the same group name, and a
    group action sends the same commands for both. *)
Theorem equal_filters_derive_one_group_name (F1 F2 : Windows) :
  Windows___eq__ F1 F2 = true ->
  group_name F1 = group_name F2 /\
  forall c timeout, Windows__group_action F1 c timeout = Windows__group_action F2 c timeout.
Proof. intros E. apply Windows_eq_true in E. now subst. Qed.

(** A filter with an excluded field sends nothing: [_call] returns [None]
    and leaves the world as it found it. *)
Lemma Windows__call_none (F : Windows) (c : string) (a : list PyVal) (sd : bool) (w : World) :
  has_none F = true -> Windows__call F c a sd w = (Ok VNone, w).
Proof. intros E. unfold Windows__call. now rewrite E. Qed.

Lemma has_none_not_init (F : Windows) :
  has_none F = true -> Windows___eq__ F Windows_init = false.
Proof.
  intros E. destruct (Windows___eq__ F Windows_init) eqn:Eq; [|reflexivity].
  apply Windows_eq_true in Eq. subst F. discriminate E.
Qed.

Lemma filter_no_args (F : Windows) : Windows_filter F no_args = Ok F.
Proof. reflexivity. Qed.

Ltac run_excluded Hf Hn :=
  unfold filtering, bind, lift_outcome; rewrite ?Hf; cbn beta iota;
  unfold bind; rewrite ?(Windows__call_none _ _ _ _ _ Hn); try reflexivity.

Lemma Windows_exist_none (F F' : Windows) (a : FilterArgs) (w : World) :
  Windows_filter F a = Ok F' -> has_none F' = true ->
  Windows_exist F a w = (Ok (Window 0), w).
Proof. intros Hf Hn. unfold Windows_exist. run_excluded Hf Hn. Qed.

Lemma Windows__wait_none (F : Windows) (c : string) (timeout : PyVal) (w : World) :
  has_none F = true -> Windows__wait F c timeout w = (Ok (Window 0), w).
Proof. intros Hn. unfold Windows__wait. run_excluded Hn Hn. Qed.

Lemma Windows__group_action_none (F : Windows) (c : string) (timeout : PyVal) (w : World) :
  has_none F = true ->
  Windows__group_action F c timeout w =
  (Ok (if is_VNone timeout then VNone else VBool true), w).
Proof.
  intros Hn. unfold Windows__group_action.
  rewrite (has_none_not_init _ Hn). cbn [andb].
  unfold bind. rewrite !(Windows__call_none _ _ _ _ _ Hn).
  destruct (is_VNone timeout); cbn [negb]; [reflexivity|].
  now rewrite (Windows_exist_none F F no_args w (filter_no_args F) Hn).
Qed.

(** C2: a filter one of whose fields [title], [class_name], [id], [pid],
    [exe], [text] is [None] matches nothing, in any world and so for good:
    [exist], [first], [last], [get_active] and the waits for a window return
    [Window(0)], [wait_close] returns [True] (no such window is there to
    close), iterating yields nothing, the length is 0, the actions return
    [None] (the group actions [True] when given a timeout); none of them
    sends a command, the world is left as it was found. *)
Theorem excluded_filter_matches_nothing (F : Windows) (a : FilterArgs) (F' : Windows)
    (timeout : PyVal) (w : World) :
  Windows_filter F a = Ok F' ->
  has_none F' = true ->
  (Windows_exist F a w = (Ok (Window 0), w) /\
   Windows_first F a w = (Ok (Window 0), w) /\
   Windows_last F a w = (Ok (Window 0), w) /\
   Windows_get_active F a w = (Ok (Window 0), w)) /\
  (Windows_wait F a timeout w = (Ok (Window 0), w) /\
   Windows_wait_active F a timeout w = (Ok (Window 0), w) /\
   Windows_wait_inactive F a timeout w = (Ok (Window 0), w) /\
   Windows_wait_close F a timeout w = (Ok true, w)) /\
  (Windows___iter__ F' w = (Ok [], w) /\
   Windows___len__ F' w = (Ok (VInt 0), w)) /\
  (Windows_activate F a timeout w =
     (Ok (if is_VNone timeout then None else Some (Window 0)), w) /\
   Windows_close F a timeout w = (Ok VNone, w) /\
   Windows_kill F a timeout w = (Ok VNone, w) /\
   Windows_hide F a w = (Ok VNone, w) /\
   Windows_show F a w = (Ok VNone, w) /\
   Windows_maximize F a w = (Ok VNone, w) /\
   Windows_minimize F a w = (Ok VNone, w) /\
   Windows_restore F a w = (Ok VNone, w) /\
   Windows_pin_to_top F a w = (Ok VNone, w) /\
   Windows_unpin_from_top F a w = (Ok VNone, w) /\
   Windows_toggle_always_on_top F a w = (Ok VNone, w) /\
   Windows_bring_to_top F a w = (Ok VNone, w) /\
   Windows_send_to_bottom F a w = (Ok VNone, w) /\
   Windows_disable F a w = (Ok VNone, w) /\
   Windows_enable F a w = (Ok VNone, w) /\
   Windows_redraw F a w = (Ok VNone, w)) /\
  (Windows_close_all F a timeout w =
     (Ok (if is_VNone timeout then VNone else VBool true), w) /\
   Windows_kill_all F a timeout w =
     (Ok (if is_VNone timeout then VNone else VBool true), w) /\
   Windows_hide_all F a w = (Ok VNone, w) /\
   Windows_maximize_all F a w = (Ok VNone, w) /\
   Windows_minimize_all F a w = (Ok VNone, w) /\
   Windows_restore_all F a w = (Ok VNone, w) /\
   Windows_show_all F a w = (Ok VNone, w)).
Proof.
  intros Hf Hn.
  split; [|split; [|split; [|split]]].
  - repeat split.
    + now apply (Windows_exist_none F F').
    + now apply (Windows_exist_none F F').
    + unfold Windows_last. run_excluded Hf Hn.
    + unfold Windows_get_active. run_excluded Hf Hn.
  - repeat split.
    + unfold Windows_wait. run_excluded Hf Hn.
      now rewrite (Windows__wait_none _ _ _ _ Hn).
    + unfold Windows_wait_active. run_excluded Hf Hn.
      now rewrite (Windows__wait_none _ _ _ _ Hn).
    + unfold Windows_wait_inactive. run_excluded Hf Hn.
      now rewrite (Windows__wait_none _ _ _ _ Hn).
    + unfold Windows_wait_close. run_excluded Hf Hn.
  - split.
    + unfold Windows___iter__. run_excluded Hn Hn.
    + unfold Windows___len__. run_excluded Hn Hn.
  - split.
    { unfold Windows_activate. run_excluded Hf Hn.
      destruct (is_VNone timeout); cbn [negb]; [reflexivity|].
      unfold Windows_wait_active, filtering, bind, lift_outcome.
      rewrite filter_no_args. cbn beta iota.
      now rewrite (Windows__wait_none _ _ _ _ Hn). }
    split; [unfold Windows_close; run_excluded Hf Hn|].
    split; [unfold Windows_kill; run_excluded Hf Hn|].
    repeat split;
      unfold Windows_hide, Windows_show, Windows_maximize, Windows_minimize,
        Windows_restore, Windows_pin_to_top, Windows_unpin_from_top,
        Windows_toggle_always_on_top, Windows_bring_to_top, Windows_send_to_bottom,
        Windows_disable, Windows_enable, Windows_redraw, query_command;
      run_excluded Hf Hn.
  - repeat split;
      unfold Windows_close_all, Windows_kill_all, Windows_hide_all, Windows_maximize_all,
        Windows_minimize_all, Windows_restore_all, Windows_show_all;
      unfold filtering, bind, lift_outcome; rewrite Hf; cbn beta iota;
      unfold bind; rewrite (Windows__group_action_none _ _ _ _ Hn); reflexivity.
Qed.

End FilterFacts.

Section HandleFacts.
Context `{Backend} `{Interp}.

(** A handle whose [id] is 0 sends nothing: [self._call] returns [None]. *)
Lemma self__call_invalid (k : HandleClass) (c : string) (a : list PyVal)
    (hw : bool) (tm : tri string) (sd : bool) (w : World) :
  self__call {| WindowHandle.cls := k; WindowHandle.id := 0 |} c a hw tm sd w = (Ok VNone, w).
Proof. destruct k; reflexivity. Qed.

(** The operations that are neutral on a handle whose [id] is 0: each
    returns its neutral value and leaves the world as it found it. *)
Lemma invalid_handle_neutral (k : HandleClass) (timeout : PyVal) (w : World) :
  let self := {| WindowHandle.cls := k; WindowHandle.id := 0 |} in
  BaseWindow_exists self w = (Ok false, w) /\
  BaseWindow_style self w = (Ok None, w) /\
  BaseWindow_class_name self w = (Ok VNone, w) /\
  BaseWindow_rect self w = (Ok (VNone, VNone, VNone, VNone), w) /\
  BaseWindow_x self w = (Ok VNone, w) /\
  BaseWindow_move self (VInt 10) (VInt 20) VNone VNone w = (Ok tt, w) /\
  BaseWindow_is_enabled self w = (Ok VNone, w) /\
  BaseWindow_is_visible self w = (Ok (VBool false), w) /\
  BaseWindow_send_message self (VInt 16) (VInt 0) (VInt 0) (VInt 5) w = (Ok VNone, w) /\
  Window_is_active self w = (Ok false, w) /\
  Window_wait_active self timeout w = (Ok false, w) /\
  Window_wait_inactive self timeout w = (Ok true, w) /\
  Window_wait_hidden self timeout w = (Ok true, w) /\
  Window_wait_close self timeout w = (Ok true, w) /\
  Window_close self VNone w = (Ok VNone, w) /\
  Window_close self (VInt 1) w = (Ok (VBool true), w) /\
  Window_activate self VNone w = (Ok VNone, w) /\
  Window_hide self w = (Ok VNone, w) /\
  Window_is_minimized self w = (Ok VNone, w) /\
  Control_check self w = (Ok VNone, w) /\
  Control_is_checked self w = (Ok VNone, w) /\
  Control_list_item_count self w = (Ok VNone, w) /\
  (forall i, 0 <= i -> Control_choose_item_index self (VInt i) w = (Ok VNone, w)).
Proof.
  destruct k; cbv zeta; repeat split; try reflexivity;
    intros i Hi; unfold Control_choose_item_index, bind, lift_outcome; cbn [py_int];
    (replace (i <? 0) with false by (symmetry; apply Z.ltb_ge; exact Hi));
    reflexivity.
Qed.

(** C1: [choose_item_index] with a negative index on the control whose
    [id] is 0 does not return a neutral value: it raises [TypeError], the
    sum of the item count [None] and the index.  Nothing is sent to
    AutoHotkey. *)
Theorem choose_item_index_negative_on_invalid_control (w : World) :
  Control_choose_item_index (Control 0) (VInt (-1)) w =
  (Raise (TypeError "unsupported operand type(s) for +"), w).
Proof. reflexivity. Qed.

(** The same for every negative index. *)
Lemma choose_item_index_below_zero (i : Z) (w : World) :
  i < 0 ->
  Control_choose_item_index (Control 0) (VInt i) w =
  (Raise (TypeError "unsupported operand type(s) for +"), w).
Proof.
  intros Hi. unfold Control_choose_item_index, bind, lift_outcome. cbn [py_int].
  replace (i <? 0) with true by (symmetry; apply Z.ltb_lt; exact Hi).
  reflexivity.
Qed.

(** C10: where reading the style of a handle yields no value, [is_enabled]
    is [None] and [is_visible] is [False]. *)
Theorem is_enabled_none_is_visible_false (self : WindowHandle.t) (w w' : World) :
  BaseWindow_style self w = (Ok None, w') ->
  BaseWindow_is_enabled self w = (Ok VNone, w') /\
  BaseWindow_is_visible self w = (Ok (VBool false), w').
Proof.
  intros E. unfold BaseWindow_is_enabled, BaseWindow_is_visible, bind.
  now rewrite E.
Qed.

End HandleFacts.

Section ChannelFacts.
Context `{Backend} `{Interp}.
Variable P : ahk_state -> Prop.
Hypothesis HP : config_preserves P.

Lemma bind_ok {A B} (m : M World A) (k : A -> M World B) (w w' : World) (x : A) :
  m w = (Ok x, w') -> bind m k w = k x w'.
Proof. intros E. unfold bind. now rewrite E. Qed.

Lemma configured_refl (w : World) : P (ahk w) -> configured P w w.
Proof.
  intros Hw. split; [exact Hw|]. split; [reflexivity|].
  exists []. split; [now rewrite app_nil_r|reflexivity].
Qed.

Lemma configured_trans (w1 w2 w3 : World) :
  configured P w1 w2 -> configured P w2 w3 -> configured P w1 w3.
Proof.
  intros (_ & S12 & l12 & C12 & F12) (P3 & S23 & l23 & C23 & F23).
  split; [exact P3|]. split; [congruence|].
  exists (l12 ++ l23). split.
  - rewrite C23, C12. now rewrite app_assoc.
  - rewrite forallb_app. now rewrite F12, F23.
Qed.

(** Sending one configuration command. *)
Lemma ahk_call_config (c : string) (a : list PyVal) (w : World) :
  existsb (String.eqb c) config_commands = true ->
  P (ahk w) ->
  exists v w', ahk_call c a w = (Ok v, w') /\ configured P w w'.
Proof.
  intros Hc Hw. destruct (HP c a (ahk w) Hc Hw) as (v & s' & E & Hs').
  exists v, {| ahk := s'; calls := calls w ++ [{| cmd := c; args := a |}]; store := store w |}.
  split.
  - unfold ahk_call. now rewrite E.
  - split; [exact Hs'|]. split; [reflexivity|].
    exists [{| cmd := c; args := a |}]. split; [reflexivity|].
    unfold is_config. cbn [forallb cmd]. now rewrite Hc.
Qed.

Lemma _set_title_match_mode_ok (m : tri string) (w : World) :
  in_modes m TITLE_MATCH_MODES = true ->
  P (ahk w) ->
  exists w', _set_title_match_mode m w = (Ok tt, w') /\ configured P w w'.
Proof.
  intros Hm Hw. destruct m as [| |s]; try discriminate Hm.
  cbn in Hm. rewrite !orb_true_iff in Hm.
  destruct Hm as [E|[E|[E|[E|E]]]]; try discriminate E;
    apply String.eqb_eq in E; subst s; cbn [_set_title_match_mode];
    match goal with
    | |- context [ahk_call ?c ?a] =>
        destruct (ahk_call_config c a w eq_refl Hw) as (v & w' & E & Hc)
    end;
    exists w'; (split; [now rewrite (bind_ok _ _ _ _ _ E)|exact Hc]).
Qed.

(** Reading a setting; a thread without settings gets a copy of the
    defaults, which reads the same. *)
Lemma read_setting_ok (f : settings.field) (S : settings.Settings) (w : World) :
  settings.ambient (store w) = Some S ->
  exists w', read_setting f w = (Ok (settings.getattr S f), w') /\
             ahk w' = ahk w /\ calls w' = calls w /\
             settings.ambient (store w') = Some S.
Proof.
  intros Ha. unfold settings.ambient in Ha.
  unfold read_setting, in_store.
  destruct (settings.current (store w)) as [p|] eqn:Ec.
  - eexists. split; [|split; [|split]].
    + unfold bind. rewrite (get_settings_set _ p Ec).
      rewrite (deref_some _ _ _ Ha). reflexivity.
    + reflexivity.
    + reflexivity.
    + cbn. unfold settings.ambient. now rewrite Ec.
  - eexists. split; [|split; [|split]].
    + unfold bind. rewrite (get_settings_unset _ S Ec Ha).
      rewrite (deref_some _ _ S); [reflexivity|]. cbn. apply lookup_snoc_new.
    + reflexivity.
    + reflexivity.
    + cbn. unfold settings.ambient. cbn. apply lookup_snoc_new.
Qed.

Lemma set_delay_ok (f : settings.field) (c : string) (w : World) :
  existsb (String.eqb c) config_commands = true ->
  delay_ready f w ->
  P (ahk w) ->
  exists w',
    (let* d := read_setting f in
     let* ms := lift_outcome (settings.optional_ms d) in
     ahk_call c [VInt ms] ;; ret tt) w = (Ok tt, w') /\
    configured P w w'.
Proof.
  intros Hc (S & ms & Ha & Hms) Hw.
  destruct (read_setting_ok f S w Ha) as (w1 & E1 & A1 & C1 & S1).
  assert (Hw1 : P (ahk w1)) by now rewrite A1.
  destruct (ahk_call_config c [VInt ms] w1 Hc Hw1) as (v & w2 & E2 & P2 & S2 & l & C2 & F2).
  exists w2. split.
  - rewrite (bind_ok _ _ _ _ _ E1). unfold lift_outcome at 1.
    unfold bind at 1. rewrite Hms.
    now rewrite (bind_ok _ _ _ _ _ E2).
  - split; [exact P2|]. split; [congruence|].
    exists l. split; [congruence|exact F2].
Qed.

Lemma delay_ready_configured (f : settings.field) (w w' : World) :
  configured P w w' -> delay_ready f w -> delay_ready f w'.
Proof.
  intros (_ & S & _) (s & ms & Ha & Hms). exists s, ms. split; [congruence|exact Hms].
Qed.

(** [Windows._call] on a filter without an excluded field: the
    configuration commands go through and the command itself is sent. *)
Lemma Windows__call_reaches (F : Windows) (c : string) (a : list PyVal) (sd : bool)
    (w : World) :
  valid_modes F ->
  has_none F = false ->
  (sd = true -> delay_ready settings.f_win_delay w) ->
  P (ahk w) ->
  exists w1, Windows__call F c a sd w = ahk_call c a w1 /\ configured P w w1.
Proof.
  intros [Htm Hxm] Hn Hd Hw. unfold Windows__call. rewrite Hn.
  destruct (ahk_call_config "DetectHiddenWindows" [on_off (hidden_windows F)] w eq_refl Hw)
    as (v1 & w1 & E1 & C1).
  rewrite (bind_ok _ _ _ _ _ E1).
  assert (exists w2,
    (if negb (is_unset (text F)) || negb (is_unset (exclude_text F))
     then ahk_call "DetectHiddenText" [on_off (hidden_text F)] ;; ret tt
     else ret tt) w1 = (Ok tt, w2) /\ configured P w w2) as (w2 & E2 & C2).
  { destruct (negb (is_unset (text F)) || negb (is_unset (exclude_text F))).
    - destruct (ahk_call_config "DetectHiddenText" [on_off (hidden_text F)] w1 eq_refl
                  (proj1 C1)) as (v2 & w2 & E2 & C2).
      exists w2. split; [now rewrite (bind_ok _ _ _ _ _ E2)|].
      now apply (configured_trans _ w1).
    - exists w1. now split. }
  rewrite (bind_ok _ _ _ _ _ E2).
  destruct (_set_title_match_mode_ok (title_mode F) w2 Htm (proj1 C2)) as (w3 & E3 & C3).
  rewrite (bind_ok _ _ _ _ _ E3).
  pose proof (configured_trans _ _ _ C2 C3) as C13.
  assert (exists v4 w4,
    (if String.eqb (text_mode F) "fast" then ahk_call "SetTitleMatchMode" [VStr "fast"]
     else if String.eqb (text_mode F) "slow" then ahk_call "SetTitleMatchMode" [VStr "slow"]
     else raise (ValueError (VStr (text_mode F)) "is not a valid text match mode")) w3 =
    (Ok v4, w4) /\ configured P w w4) as (v4 & w4 & E4 & C4).
  { cbn in Hxm. rewrite orb_false_r in Hxm.
    destruct (String.eqb (text_mode F) "fast").
    - destruct (ahk_call_config "SetTitleMatchMode" [VStr "fast"] w3 eq_refl (proj1 C3))
        as (v4 & w4 & E4 & C4).
      exists v4, w4. split; [exact E4|]. now apply (configured_trans _ w3).
    - cbn in Hxm. rewrite Hxm.
      destruct (ahk_call_config "SetTitleMatchMode" [VStr "slow"] w3 eq_refl (proj1 C3))
        as (v4 & w4 & E4 & C4).
      exists v4, w4. split; [exact E4|]. now apply (configured_trans _ w3). }
  rewrite (bind_ok _ _ _ _ _ E4).
  destruct sd.
  - destruct (set_delay_ok settings.f_win_delay "SetWinDelay" w4 eq_refl
                (delay_ready_configured _ _ _ C4 (Hd eq_refl)) (proj1 C4)) as (w5 & E5 & C5).
    exists w5. split.
    + unfold set_win_delay. now rewrite (bind_ok _ _ _ _ _ E5).
    + now apply (configured_trans _ w4).
  - exists w4. now split.
Qed.

(** [WindowHandle._call] on a handle whose [id] is not 0, without a title
    match mode. *)
Lemma WindowHandle__call_reaches (self : WindowHandle.t) (c : string) (a : list PyVal)
    (hw sd : bool) (w : World) :
  WindowHandle.id self <> 0 ->
  (sd = true -> delay_ready (delay_field (WindowHandle.cls self)) w) ->
  P (ahk w) ->
  exists w1, WindowHandle__call self c a hw PyNone sd w = ahk_call c a w1 /\ configured P w w1.
Proof.
  intros Hid Hd Hw. unfold WindowHandle__call.
  replace (WindowHandle.id self =? 0) with false by (symmetry; now apply Z.eqb_neq).
  destruct (ahk_call_config "DetectHiddenWindows" [on_off hw] w eq_refl Hw)
    as (v1 & w1 & E1 & C1).
  rewrite (bind_ok _ _ _ _ _ E1). cbn [is_none negb].
  unfold ret at 1. unfold bind at 1.
  destruct sd.
  - unfold self__set_delay, set_win_delay, set_control_delay.
    pose proof (delay_ready_configured _ _ _ C1 (Hd eq_refl)) as Hd1.
    destruct (WindowHandle.cls self); cbn [delay_field] in Hd1.
    + destruct (set_delay_ok settings.f_win_delay "SetWinDelay" w1 eq_refl Hd1 (proj1 C1))
        as (w2 & E2 & C2).
      exists w2. split; [now rewrite (bind_ok _ _ _ _ _ E2)|].
      now apply (configured_trans _ w1).
    + destruct (set_delay_ok settings.f_control_delay "SetControlDelay" w1 eq_refl Hd1
                  (proj1 C1)) as (w2 & E2 & C2).
      exists w2. split; [now rewrite (bind_ok _ _ _ _ _ E2)|].
      now apply (configured_trans _ w1).
  - exists w1. now split.
Qed.

End ChannelFacts.

Section WaitFacts.
Context `{Backend} `{Interp}.

Lemma quiet_preserves : configures_quietly -> config_preserves (fun _ => True).
Proof.
  intros Hq c a s Hc _. destruct (Hq c a s Hc) as (v & s' & E).
  now exists v, s'.
Qed.






End WaitFacts.

Section ActiveFacts.
Context `{Backend} `{Interp}.

Lemma default_str_blank (x : tri string) :
  default_str (fun s => s) x "" = "" <-> blank x = true.
Proof.
  destruct x as [| |s]; cbn; try (split; [discriminate|discriminate]); try tauto.
  symmetry. apply String.eqb_eq.
Qed.

Lemma include_blank (F : Windows) :
  fst (Windows__include F) = "" <->
  blank (title F) && is_unset (class_name F) && is_unset (id F) && is_unset (pid F) &&
  is_unset (exe F) = true.
Proof.
  unfold Windows__include. cbn [fst].
  destruct (title F) as [| |[|ch s]], (class_name F), (id F), (pid F), (exe F);
    cbn; split; intros E; try discriminate E; reflexivity.
Qed.

(** The query of a filter is four empty strings exactly when every text
    field is [UNSET] or empty and the other fields are [UNSET]. *)
Lemma blank_query_spec (F : Windows) :
  Windows__query F = [""; ""; ""; ""] <-> blank_query F = true.
Proof.
  unfold Windows__query, blank_query. split.
  - intros E. injection E as E1 E2 E3 E4.
    apply include_blank in E1.
    unfold Windows__include in E2. unfold Windows__exclude in E3, E4. cbn [fst snd] in E2, E3, E4.
    apply default_str_blank in E2, E3, E4.
    now rewrite E1, E2, E3, E4.
  - intros E.
    apply andb_true_iff in E as [E E4]. apply andb_true_iff in E as [E E3].
    apply andb_true_iff in E as [E1 E2].
    apply include_blank in E1. apply default_str_blank in E2, E3, E4.
    rewrite E1. unfold Windows__include, Windows__exclude. cbn [fst snd].
    now rewrite E2, E3, E4.
Qed.

Lemma unconstrained_blank (F : Windows) : unconstrained F -> blank_query F = true.
Proof.
  intros (E1 & E2 & E3 & E4 & E5 & E6 & E7 & E8). unfold blank_query.
  now rewrite E1, E2, E3, E4, E5, E6, E7, E8.
Qed.

(** C7: [get_active] asks AutoHotkey for the active window "A" exactly
    when the query of the filter is four empty strings, that is when every
    text field of the filter ([title], [text], [exclude_title],
    [exclude_text]) is [UNSET] or the empty string and [class_name], [id],
    [pid] and [exe] are [UNSET]; a fully unconstrained filter is such a
    filter.  Otherwise it asks for the active window that matches the
    query.  In both cases the answer, or 0 for an answer that is not true,
    becomes the [id] of the window returned. *)
Theorem get_active_asks_for_the_active_window (F : Windows) (a : FilterArgs) (F' : Windows)
    (w : World) :
  configures_quietly ->
  Windows_filter F a = Ok F' ->
  valid_modes F' ->
  has_none F' = false ->
  (blank_query F' = true <-> Windows__query F' = [""; ""; ""; ""]) /\
  (unconstrained F' -> blank_query F' = true) /\
  exists w1,
    configured (fun _ => True) w w1 /\
    Windows_get_active F a w =
      (let* r := ahk_call "WinActive" (strs (active_query F')) in
       Window_from (py_or r (VInt 0))) w1 /\
    (forall v w2,
        ahk_call "WinActive" (strs (active_query F')) w1 = (Ok v, w2) ->
        truthy v = false ->
        Windows_get_active F a w = (Ok (Window 0), w2)).
Proof.
  intros Hq Hf Hv Hn.
  split; [symmetry; apply blank_query_spec|].
  split; [apply unconstrained_blank|].
  unfold active_query.
  set (q := if blank_query F' then ["A"; ""; ""; ""] else Windows__query F').
  destruct (Windows__call_reaches _ (quiet_preserves Hq) F' "WinActive" (strs q) false w
              Hv Hn (fun E => False_ind _ (diff_false_true E)) I) as (w1 & E1 & C1).
  assert (Eg : Windows_get_active F a w =
               (let* r := ahk_call "WinActive" (strs q) in Window_from (py_or r (VInt 0))) w1).
  { unfold Windows_get_active, filtering, lift_outcome.
    unfold bind at 1. rewrite Hf. cbv zeta.
    replace (if bool_decide (Windows__query F' = [""; ""; ""; ""])
             then ["A"; ""; ""; ""] else Windows__query F') with q.
    - unfold bind. now rewrite E1.
    - unfold q. destruct (blank_query F') eqn:Eb.
      + apply blank_query_spec in Eb. now rewrite bool_decide_eq_true_2.
      + rewrite bool_decide_eq_false_2; [reflexivity|].
        intros Eq. apply blank_query_spec in Eq. congruence. }
  exists w1. split; [exact C1|]. split; [exact Eg|].
  intros v w2 Ev Ht. rewrite Eg. unfold bind. rewrite Ev.
  unfold py_or. now rewrite Ht.
Qed.

End ActiveFacts.

Section RectFacts.
Context `{Backend} `{Interp}.

Lemma rects_preserved (rect_of : ahk_state -> Z -> option (Z * Z * Z * Z)) (n : Z)
    (r : Z * Z * Z * Z) :
  moves_windows rect_of -> config_preserves (fun s => rect_of s n = Some r).
Proof.
  intros Hm c a s Hc Hs.
  destruct (config_keeps_rects _ Hm c a s Hc) as (v & s' & E & Hk).
  exists v, s'. split; [exact E|]. now rewrite Hk.
Qed.

(** Reading the rectangle of a window AutoHotkey knows. *)
Lemma rect_of_known_window (rect_of : ahk_state -> Z -> option (Z * Z * Z * Z)) (n : Z)
    (r : Z * Z * Z * Z) (w : World) :
  moves_windows rect_of ->
  n <> 0 ->
  rect_of (ahk w) n = Some r ->
  fst (BaseWindow_rect (Window n) w) = Ok (VInt r.1.1.1, VInt r.1.1.2, VInt r.1.2, VInt r.2).
Proof.
  intros Hm Hn Hr.
  unfold BaseWindow_rect, self__get_pos, Window__get_pos, self__call.
  cbn [WindowHandle.cls Window].
  destruct (WindowHandle__call_reaches _ (rects_preserved rect_of n r Hm) (Window n)
              "WinGetPos" (WindowHandle__include (Window n)) true false w Hn
              (fun E => False_ind _ (diff_false_true E)) Hr) as (w1 & E1 & C1).
  unfold bind at 1. rewrite E1.
  unfold ahk_call. rewrite (get_pos_reports _ Hm _ n r (proj1 C1)).
  destruct r as [[[x y] width] height]. reflexivity.
Qed.

(** What [move] sends for an argument that is an int or omitted, and the
    coordinate AutoHotkey reads off it. *)
Lemma move_argument (v : option Z) (old : Z) :
  exists a, default_int (int_or_none v) (VStr "") = Ok a /\
            moved_to a old = Some (given_or v old).
Proof. destruct v as [z|]; eexists; split; reflexivity. Qed.

(** C9: [x], [y], [width] and [height] read the whole rectangle and keep
    one component; assigning one of them is a call of [move] with that
    argument alone.  Where AutoHotkey moves windows as [moves_windows]
    says, after a [move] on a window it knows the rectangle reads the
    coordinates that were given and, for each one omitted, the coordinate
    of before: after [move(x, y)] it reads [x] and [y] with the width and
    the height of before. *)
Theorem move_sets_position_and_keeps_size
    (rect_of : ahk_state -> Z -> option (Z * Z * Z * Z)) (n : Z)
    (x y width height : option Z) (r : Z * Z * Z * Z) (w : World) :
  moves_windows rect_of ->
  delay_ready settings.f_win_delay w ->
  n <> 0 ->
  rect_of (ahk w) n = Some r ->
  (forall self w0,
      BaseWindow_x self w0 = (let* t := BaseWindow_rect self in ret t.1.1.1) w0 /\
      BaseWindow_y self w0 = (let* t := BaseWindow_rect self in ret t.1.1.2) w0 /\
      BaseWindow_width self w0 = (let* t := BaseWindow_rect self in ret t.1.2) w0 /\
      BaseWindow_height self w0 = (let* t := BaseWindow_rect self in ret t.2) w0) /\
  (forall self v,
      BaseWindow_set_x self v = BaseWindow_move self v VNone VNone VNone /\
      BaseWindow_set_y self v = BaseWindow_move self VNone v VNone VNone /\
      BaseWindow_set_width self v = BaseWindow_move self VNone VNone v VNone /\
      BaseWindow_set_height self v = BaseWindow_move self VNone VNone VNone v) /\
  exists w1,
    BaseWindow_move (Window n) (int_or_none x) (int_or_none y)
      (int_or_none width) (int_or_none height) w = (Ok tt, w1) /\
    fst (BaseWindow_rect (Window n) w1) =
      Ok (VInt (given_or x r.1.1.1), VInt (given_or y r.1.1.2),
          VInt (given_or width r.1.2), VInt (given_or height r.2)).
Proof.
  intros Hm Hd Hn Hr. split; [|split].
  - intros self w0.
    unfold BaseWindow_x, BaseWindow_y, BaseWindow_width, BaseWindow_height, bind.
    destruct (BaseWindow_rect self w0) as [[[[[x0 y0] width0] height0]|e] w'];
      repeat split; reflexivity.
  - intros self v. repeat split; reflexivity.
  - destruct (move_argument x r.1.1.1) as (ax & Dx & Mx).
    destruct (move_argument y r.1.1.2) as (ay & Dy & My).
    destruct (move_argument width r.1.2) as (aw & Dw & Mw).
    destruct (move_argument height r.2) as (ah & Dh & Mh).
    unfold BaseWindow_move, lift_outcome, bind. rewrite Dx, Dy, Dw, Dh.
    unfold self__move, Window__move, self__call. cbn [WindowHandle.cls Window].
    destruct (WindowHandle__call_reaches _ (rects_preserved rect_of n r Hm) (Window n)
                "WinMove"
                (WindowHandle__include (Window n) ++ [ax; ay; aw; ah])
                true true w Hn (fun _ => Hd) Hr) as (w1 & E1 & C1).
    destruct (move_sets _ Hm _ n r ax ay aw ah _ _ _ _ (proj1 C1) Mx My Mw Mh)
      as (v & s' & E2 & Hr').
    set (sent := {| cmd := "WinMove";
                    args := WindowHandle__include (Window n) ++ [ax; ay; aw; ah] |}).
    exists {| ahk := s'; calls := calls w1 ++ [sent]; store := store w1 |}. split.
    + unfold bind. rewrite E1. unfold ahk_call. rewrite E2. reflexivity.
    + match goal with
      | |- fst (BaseWindow_rect _ ?w2) = _ =>
          exact (rect_of_known_window rect_of n _ w2 Hm Hn Hr')
      end.
Qed.

End RectFacts.

Section DeskFacts.
Local Existing Instance desk.backend.
Local Existing Instance desk.interp.

Lemma config_is_one_of (c : string) :
  existsb (String.eqb c) config_commands = true ->
  c = "DetectHiddenWindows" \/ c = "DetectHiddenText" \/ c = "SetTitleMatchMode" \/
  c = "SetWinDelay" \/ c = "SetControlDelay".
Proof.
  cbn. rewrite !orb_true_iff, !String.eqb_eq. intuition discriminate.
Qed.

(** The simulated desktop ignores configuration commands. *)
Lemma desk_ignores_config (c : string) (a : list PyVal) (d : desk.Desk) :
  existsb (String.eqb c) config_commands = true ->
  desk.run {| cmd := c; args := a |} d = (Ok (VStr ""), d).
Proof.
  intros Hc. apply config_is_one_of in Hc.
  destruct Hc as [->|[->|[->|[->| ->]]]]; reflexivity.
Qed.

Lemma desk_configures_quietly : configures_quietly.
Proof.
  intros c a s Hc. exists (VStr ""), s. now apply desk_ignores_config.
Qed.

Lemma desk_moves_windows : moves_windows desk.rect_of.
Proof.
  split.
  - intros c a s Hc. exists (VStr ""), s. split; [|reflexivity].
    now apply desk_ignores_config.
  - intros s n r Hr. unfold desk.rect_of in Hr.
    destruct (Z.eqb_spec n 7) as [->|]; [|discriminate Hr].
    injection Hr as <-. reflexivity.
  - intros s n r x y width height x' y' width' height' Hr Mx My Mw Mh.
    unfold desk.rect_of in Hr.
    destruct (Z.eqb_spec n 7) as [->|]; [|discriminate Hr].
    injection Hr as <-.
    destruct s as [[[[x0 y0] width0] height0] st].
    cbn [fst snd desk.rect] in Mx, My, Mw, Mh.
    eexists _, _. split.
    + unfold run_command, desk.backend, desk.run.
      cbn [cmd args String.eqb Ascii.eqb Bool.eqb desk.rect desk.style].
      change (desk.names (desk.nth_arg (WindowHandle__include (Window 7) ++
                                          [x; y; width; height]) 0%nat)) with true.
      cbn [WindowHandle__include app].
      change (desk.nth_arg (?[a0] :: ?[a1] :: x :: y :: width :: height :: []) 2%nat) with x.
      change (desk.nth_arg (?[b0] :: ?[b1] :: x :: y :: width :: height :: []) 3%nat) with y.
      change (desk.nth_arg (?[c0] :: ?[c1] :: x :: y :: width :: height :: []) 4%nat)
        with width.
      change (desk.nth_arg (?[d0] :: ?[d1] :: x :: y :: width :: height :: []) 5%nat)
        with height.
      rewrite Mx, My, Mw, Mh. reflexivity.
    + reflexivity.
Qed.

Lemma desk_delay_ready : delay_ready settings.f_win_delay desk.start.
Proof. exists settings.Settings_init, 100. split; reflexivity. Qed.


Lemma excluded_filter_matches_nothing_witness :
  Windows_exist windows (with_title PyNone) desk.start = (Ok (Window 0), desk.start) /\
  Windows_wait_close windows (with_title PyNone) (VInt 1) desk.start = (Ok true, desk.start) /\
  Windows___len__ no_title desk.start = (Ok (VInt 0), desk.start).
Proof.
  destruct (excluded_filter_matches_nothing windows (with_title PyNone) no_title (VInt 1)
              desk.start eq_refl eq_refl) as ((He & _) & (_ & _ & _ & Hc) & (_ & Hl) & _).
  exact (conj He (conj Hc Hl)).
Defined.

(** Counterexample to C2 as stated.  [wait_close] on a filter with an
    excluded field returns [True], whereas the value it returns when the
    wait times out is [False]; and the test of [Windows._call] covers the
    six fields of [filter] only: a filter whose [exclude_title] is [None]
    sends its query, with the exclusion "None". *)
Lemma wait_close_of_excluded_filter_is_true :
  (Windows_filter windows (with_title PyNone) = Ok no_title /\
   has_none no_title = true /\
   fst (Windows_wait_close no_title no_args (VInt 1) desk.start) = Ok true /\
   fst (Windows_wait_close windows (with_title (Val "Untitled")) (VInt 1) desk.start) =
     Ok false) /\
  (exclude_title (Windows_exclude windows PyNone Unset) = PyNone /\
   calls (snd (Windows_exist (Windows_exclude windows PyNone Unset) no_args desk.start)) =
   [ {| cmd := "DetectHiddenWindows"; args := [VStr "Off"] |};
     {| cmd := "SetTitleMatchMode"; args := [VInt 1] |};
     {| cmd := "SetTitleMatchMode"; args := [VStr "fast"] |};
     {| cmd := "WinExist"; args := [VStr ""; VStr ""; VStr "None"; VStr ""] |} ]).
Proof. repeat split. Qed.


Lemma get_active_asks_for_the_active_window_witness :
  blank_query windows = true /\
  exists w1,
    configured (fun _ => True) desk.start w1 /\
    Windows_get_active windows no_args desk.start =
      (let* r := ahk_call "WinActive" (strs ["A"; ""; ""; ""]) in
       Window_from (py_or r (VInt 0))) w1.
Proof.
  destruct (get_active_asks_for_the_active_window windows no_args windows desk.start
              desk_configures_quietly eq_refl (conj eq_refl eq_refl) eq_refl)
    as (_ & _ & w1 & C1 & E1 & _).
  split; [reflexivity|]. exists w1. split; [exact C1|exact E1].
Defined.

(** Counterexample to C7 as stated: a filter whose title is the empty
    string is not unconstrained, and [get_active] asks for the active
    window "A" all the same. *)
Lemma get_active_of_empty_title_asks_for_A :
  Windows_filter windows (with_title (Val "")) = Ok empty_title /\
  ~ unconstrained empty_title /\
  calls (snd (Windows_get_active empty_title no_args desk.start)) =
  [ {| cmd := "DetectHiddenWindows"; args := [VStr "Off"] |};
    {| cmd := "SetTitleMatchMode"; args := [VInt 1] |};
    {| cmd := "SetTitleMatchMode"; args := [VStr "fast"] |};
    {| cmd := "WinActive"; args := [VStr "A"; VStr ""; VStr ""; VStr ""] |} ].
Proof.
  split; [reflexivity|]. split; [|reflexivity].
  intros (E & _). discriminate E.
Qed.

Lemma equal_filters_derive_one_group_name_witness :
  group_name notepad_in_two_steps = group_name notepad_at_once /\
  forall c timeout,
    Windows__group_action notepad_in_two_steps c timeout =
    Windows__group_action notepad_at_once c timeout.
Proof.
  apply (equal_filters_derive_one_group_name notepad_in_two_steps notepad_at_once).
  reflexivity.
Defined.

(** A negative hash gives a group name without a minus sign. *)
Example group_name_of_notepad : group_name notepad_at_once = "m109856630077588231".
Proof. reflexivity. Qed.

Lemma move_sets_position_and_keeps_size_witness :
  exists w1,
    BaseWindow_move (Window 7) (VInt 10) (VInt 20) VNone VNone desk.start = (Ok tt, w1) /\
    fst (BaseWindow_rect (Window 7) w1) = Ok (VInt 10, VInt 20, VInt 640, VInt 480).
Proof.
  assert (Hn : 7 <> 0) by discriminate.
  destruct (move_sets_position_and_keeps_size (H := desk.backend) desk.rect_of 7
              (Some 10) (Some 20) None None (0, 0, 640, 480)
              desk.start desk_moves_windows desk_delay_ready Hn eq_refl) as (_ & _ & Hm).
  exact Hm.
Defined.

(** What [move(x=10, y=20)] sends. *)
Example move_sends :
  calls (snd (BaseWindow_move (Window 7) (VInt 10) (VInt 20) VNone VNone desk.start)) =
  [ {| cmd := "DetectHiddenWindows"; args := [VStr "On"] |};
    {| cmd := "SetWinDelay"; args := [VInt 100] |};
    {| cmd := "WinMove";
       args := [VStr "ahk_id 7"; VStr ""; VInt 10; VInt 20; VStr ""; VStr ""] |} ].
Proof. reflexivity. Qed.

Lemma is_enabled_none_is_visible_false_witness :
  let w' := snd (BaseWindow_style (Window 9) desk.start) in
  BaseWindow_is_enabled (Window 9) desk.start = (Ok VNone, w') /\
  BaseWindow_is_visible (Window 9) desk.start = (Ok (VBool false), w').
Proof.
  intros w'. apply (is_enabled_none_is_visible_false (Window 9) desk.start w').
  reflexivity.
Defined.

(** The window the desktop has is visible and enabled. *)
Example visible_and_enabled :
  fst (BaseWindow_is_enabled (Window 7) desk.start) = Ok (VBool true) /\
  fst (BaseWindow_is_visible (Window 7) desk.start) = Ok (VBool true).
Proof. split; reflexivity. Qed.

Example optional_ms_default_win_delay :
  settings.optional_ms (settings.win_delay settings.Settings_init) = Ok 100.
Proof. reflexivity. Qed.

Example optional_ms_default_control_delay :
  settings.optional_ms (settings.control_delay settings.Settings_init) = Ok 20.
Proof. reflexivity. Qed.

Example optional_ms_negative : settings.optional_ms (VInt (-1)) = Ok (-1).
Proof. reflexivity. Qed.

End DeskFacts.

Section SplitFacts.

Lemma split_not_nil (sep : ascii) (s : string) : split sep s <> [].
Proof.
  destruct s as [|c rest]; cbn; [discriminate|].
  destruct (Ascii.eqb c sep); [discriminate|].
  destruct (split sep rest); discriminate.
Qed.

Lemma join_cons (sep : ascii) (c : ascii) (piece : string) (pieces : list string) :
  join sep (String c piece :: pieces) = String c (join sep (piece :: pieces)).
Proof. unfold join. destruct pieces; reflexivity. Qed.

(** Joining the pieces with the separator gives the string back. *)
Lemma join_split (sep : ascii) (s : string) : join sep (split sep s) = s.
Proof.
  induction s as [|c rest IH]; [reflexivity|]. cbn [split].
  destruct (Ascii.eqb_spec c sep) as [->|Hne].
  - pose proof (split_not_nil sep rest) as Hnn.
    unfold join in *. destruct (split sep rest) as [|p ps]; [contradiction|].
    cbn [String.concat] in *. cbn. now rewrite IH.
  - pose proof (split_not_nil sep rest) as Hnn.
    destruct (split sep rest) as [|p ps]; [contradiction|].
    rewrite join_cons. now rewrite IH.
Qed.

(** No piece contains the separator, and a piece has no character the
    string does not have. *)
Lemma split_pieces (sep : ascii) (s : string) :
  Forall (fun piece => ~ occurs sep piece /\ forall c, occurs c piece -> occurs c s)
    (split sep s).
Proof.
  induction s as [|c rest IH]; cbn [split].
  - constructor; [|constructor]. split; [intros []|intros c []].
  - destruct (Ascii.eqb_spec c sep) as [->|Hne].
    + constructor.
      * split; [intros []|intros c []].
      * eapply Forall_impl; [exact IH|]. intros p [H1 H2]. split; [exact H1|].
        intros c Hc. right. now apply H2.
    + pose proof (split_not_nil sep rest) as Hnn.
      destruct (split sep rest) as [|p ps]; [contradiction|].
      inversion IH as [|? ? [H1 H2] Hps]; subst.
      constructor.
      * split.
        -- intros [E|Hin]; [congruence|now apply H1].
        -- intros c0 [E|Hin]; [now left|right; now apply H2].
      * eapply Forall_impl; [exact Hps|]. intros q [Hq1 Hq2]. split; [exact Hq1|].
        intros c0 Hc. right. now apply Hq2.
Qed.

Lemma map_join_split (sep : ascii) (lines : list string) :
  map (join sep) (map (split sep) lines) = lines.
Proof.
  induction lines as [|l ls IH]; [reflexivity|]. cbn. now rewrite join_split, IH.
Qed.

(** X1: [_split_list_items] gives no row for the empty string alone; the
    rows of any other string, joined by a tab within a row and a newline
    between rows, give the string back; no cell contains a tab or a
    newline. *)
Theorem split_list_items_round_trip (s : string) :
  (Control__split_list_items s = [] <-> s = "") /\
  (s <> "" -> join newline (map (join tab) (Control__split_list_items s)) = s) /\
  Forall (Forall (fun cell => ~ occurs tab cell /\ ~ occurs newline cell))
    (Control__split_list_items s).
Proof.
  unfold Control__split_list_items.
  destruct (String.eqb_spec s "") as [->|Hne].
  - split; [tauto|]. split; [congruence|constructor].
  - split; [|split].
    + split; [|congruence]. intros E.
      destruct (split newline s) eqn:Es; [now apply split_not_nil in Es|discriminate E].
    + intros _. now rewrite map_join_split, join_split.
    + apply Forall_map.
      eapply Forall_impl; [apply (split_pieces newline s)|].
      intros line [Hnl _]. cbn beta.
      eapply Forall_impl; [apply (split_pieces tab line)|].
      intros cell [Htab Hsub]. split; [exact Htab|].
      intros Hc. apply Hnl. now apply Hsub.
Qed.

End SplitFacts.

Section FlagFacts.
Context `{Backend}.

(** Testing a flag of one bit is testing that bit. *)
Lemma flag_in_bit (n style : Z) :
  0 <= n -> flag_in (2 ^ n) style = Z.testbit style n.
Proof.
  intros Hn. unfold flag_in.
  destruct (Z.testbit style n) eqn:Eb.
  - apply Z.eqb_eq. apply Z.bits_inj'. intros m Hm.
    rewrite Z.land_spec.
    destruct (Z.eq_dec n m) as [<-|Hne].
    + now rewrite Z.pow2_bits_true, Eb.
    + now rewrite Z.pow2_bits_false.
  - apply Z.eqb_neq. intros E.
    assert (Ht : Z.testbit (Z.land (2 ^ n) style) n = Z.testbit (2 ^ n) n) by now rewrite E.
    rewrite Z.land_spec, Eb, Z.pow2_bits_true in Ht by exact Hn.
    now rewrite andb_false_r in Ht.
Qed.

(** A flag within a flag within a style is within the style. *)
Lemma flag_in_trans (a b c : Z) :
  flag_in a b = true -> flag_in b c = true -> flag_in a c = true.
Proof.
  unfold flag_in. rewrite !Z.eqb_eq. intros Hab Hbc.
  rewrite <- Hab at 1. rewrite <- Z.land_assoc, Hbc. exact Hab.
Qed.

(** X2: the style of a window that has one decides [is_visible] and
    [is_enabled] by one bit each: bit 28 is [VISIBLE], bit 27 is
    [DISABLED]. *)
Theorem visible_and_enabled_are_single_bits (self : WindowHandle.t) (flags : Z)
    (w w' : World) :
  BaseWindow_style self w = (Ok (Some flags), w') ->
  BaseWindow_is_visible self w = (Ok (VBool (Z.testbit flags 28)), w') /\
  BaseWindow_is_enabled self w = (Ok (VBool (negb (Z.testbit flags 27))), w').
Proof.
  intros E. unfold BaseWindow_is_visible, BaseWindow_is_enabled, bind. rewrite E.
  change WS_VISIBLE with (2 ^ 28). change WS_DISABLED with (2 ^ 27).
  now rewrite !flag_in_bit by discriminate.
Qed.

(** X3: a style that contains a preset contains each flag the preset is the
    union of; every style contains [OVERLAPPED], which is no bit at all. *)
Theorem presets_contain_their_parts (style : Z) :
  (flag_in WS_OVERLAPPEDWINDOW style = true ->
   flag_in WS_CAPTION style = true /\ flag_in WS_SYSMENU style = true /\
   flag_in WS_THICKFRAME style = true /\ flag_in WS_MINIMIZEBOX style = true /\
   flag_in WS_MAXIMIZEBOX style = true) /\
  (flag_in WS_POPUPWINDOW style = true ->
   flag_in WS_POPUP style = true /\ flag_in WS_BORDER style = true /\
   flag_in WS_SYSMENU style = true) /\
  (flag_in WS_CAPTION style = true -> flag_in WS_BORDER style = true) /\
  flag_in WS_OVERLAPPED style = true.
Proof.
  split; [|split; [|split]]; try reflexivity; intros Hs; repeat split;
    (eapply flag_in_trans; [|exact Hs]); reflexivity.
Qed.

End FlagFacts.

Section ComposeFacts.

Lemma merge_field_assoc {A} (x y z : tri A) :
  merge_field x (merge_field y z) = merge_field (merge_field x y) z.
Proof. now destruct x, y. Qed.

Lemma merged_merged (F : Windows) (a b : FilterArgs) :
  merged (merged F a) b = merged F (then_args a b).
Proof. unfold merged, then_args. cbn. now rewrite !merge_field_assoc. Qed.

Lemma all_unset_then_args (a b : FilterArgs) :
  all_unset (then_args a b) = all_unset a && all_unset b.
Proof.
  destruct a as [t c i p e x m], b as [t' c' i' p' e' x' m'].
  unfold all_unset, then_args. cbn.
  destruct t', c', i', p', e', x', m'; cbn; rewrite ?andb_false_r, ?andb_true_r;
    reflexivity.
Qed.

(** X4: two [filter] calls in a row are one call with the later arguments
    winning, whenever the first call is accepted; in particular repeating
    a call changes nothing. *)
Theorem filter_twice_is_filter_once (F : Windows) (a b : FilterArgs) :
  acceptable_match a = true ->
  and_then (Windows_filter F a) (fun F1 => Windows_filter F1 b) =
    Windows_filter F (then_args a b) /\
  and_then (Windows_filter F a) (fun F1 => Windows_filter F1 a) = Windows_filter F a.
Proof.
  intros Ha. rewrite (filter_acceptable F a Ha). cbn [and_then].
  assert (Hgen : forall b, Windows_filter (merged F a) b = Windows_filter F (then_args a b)).
  { clear b. intros b.
    destruct (acceptable_match b) eqn:Hb.
    - rewrite (filter_acceptable _ b Hb), merged_merged.
      symmetry. apply filter_acceptable.
      unfold acceptable_match, then_args in *. cbn.
      destruct (a_match b); cbn in *; try discriminate Hb; auto.
    - unfold acceptable_match in Hb. apply orb_false_iff in Hb as [Hu Hm].
      unfold Windows_filter.
      rewrite all_unset_then_args.
      assert (Eall : all_unset b = false).
      { unfold all_unset. rewrite Hu. now rewrite !andb_false_r. }
      rewrite Eall, andb_false_r. cbn [then_args a_match].
      destruct (a_match b) eqn:Eb; cbn [is_unset] in Hu; try discriminate Hu;
        cbn [merge_field is_unset negb andb]; rewrite ?Hm; reflexivity. }
  split; [apply Hgen|].
  rewrite (filter_acceptable _ a Ha). f_equal.
  destruct F, a as [t c i p e x m]. unfold merged. cbn.
  f_equal; match goal with |- merge_field ?x _ = _ => now destruct x end.
Qed.

(** X5: [filter] leaves the exclusion pair and the three switches alone, and
    the other refining methods leave the fields of [filter] alone: the two
    kinds of refinement can be applied in either order. *)
Theorem refinements_commute (F : Windows) (a : FilterArgs) (et ex : tri string)
    (hw ht slow : bool) :
  and_then (Windows_filter F a) (fun F1 => Ok (Windows_exclude F1 et ex)) =
    Windows_filter (Windows_exclude F et ex) a /\
  and_then (Windows_filter F a) (fun F1 => Ok (Windows_include_hidden_windows F1 hw)) =
    Windows_filter (Windows_include_hidden_windows F hw) a /\
  and_then (Windows_filter F a) (fun F1 => Ok (Windows_include_hidden_text F1 ht)) =
    Windows_filter (Windows_include_hidden_text F ht) a /\
  and_then (Windows_filter F a) (fun F1 => Ok (Windows_match_text_slow F1 slow)) =
    Windows_filter (Windows_match_text_slow F slow) a /\
  Windows_exclude (Windows_include_hidden_windows F hw) et ex =
    Windows_include_hidden_windows (Windows_exclude F et ex) hw.
Proof.
  unfold Windows_filter.
  destruct (all_unset a);
    [|destruct (negb (is_unset (a_match a)) && negb (in_modes (a_match a) TITLE_MATCH_MODES))];
    cbn [and_then]; repeat split;
    unfold Windows_exclude; destruct (is_unset et && is_unset ex), slow; reflexivity.
Qed.

End ComposeFacts.

Section MinMaxFacts.
Context `{Backend}.

Lemma cmp_Z_float_eq (a b : Z) (f : float) :
  cmp_Z_float a f = Some Eq -> cmp_Z_float b f = Some Eq -> a = b.
Proof.
  unfold cmp_Z_float.
  destruct (Prim2SF f) as [s|s| |s m e]; try discriminate; [|destruct s; discriminate|].
  - intros Ea Eb. injection Ea as Ea. injection Eb as Eb.
    apply Z.compare_eq in Ea, Eb. congruence.
  - destruct (0 <=? e) eqn:Ee; intros Ea Eb; injection Ea as Ea; injection Eb as Eb;
      apply Z.compare_eq in Ea, Eb.
    + congruence.
    + apply Z.leb_gt in Ee.
      assert (Hp : 2 ^ (- e) <> 0) by (apply Z.pow_nonzero; lia).
      apply (Z.mul_reg_r _ _ _ Hp). congruence.
Qed.

(** A value equals at most one int. *)
Lemma eq_int_unique (v : PyVal) (a b : Z) :
  eq_int v a = true -> eq_int v b = true -> a = b.
Proof.
  unfold eq_int. destruct v as [| |x|z|f|s|d]; cbn; try discriminate.
  - destruct ((if x then 1 else 0) ?= a) eqn:Ea; try discriminate.
    destruct ((if x then 1 else 0) ?= b) eqn:Eb; try discriminate.
    apply Z.compare_eq in Ea, Eb. congruence.
  - destruct (z ?= a) eqn:Ea; try discriminate.
    destruct (z ?= b) eqn:Eb; try discriminate.
    apply Z.compare_eq in Ea, Eb. congruence.
  - destruct (cmp_Z_float a f) as [[| |]|] eqn:Ea; try discriminate.
    destruct (cmp_Z_float b f) as [[| |]|] eqn:Eb; try discriminate.
    intros _ _. exact (cmp_Z_float_eq a b f Ea Eb).
Qed.

(** X6: read in one state of the desktop, [is_minimized], [is_restored] and
    [is_maximized] are never true two at a time, and each is [None] exactly
    when the others are. *)
Theorem min_max_states_exclude_each_other (self : WindowHandle.t) (w : World) :
  let minimized := fst (Window_is_minimized self w) in
  let restored := fst (Window_is_restored self w) in
  let maximized := fst (Window_is_maximized self w) in
  ~ (minimized = Ok (VBool true) /\ restored = Ok (VBool true)) /\
  ~ (minimized = Ok (VBool true) /\ maximized = Ok (VBool true)) /\
  ~ (restored = Ok (VBool true) /\ maximized = Ok (VBool true)) /\
  (minimized = Ok VNone <-> restored = Ok VNone) /\
  (restored = Ok VNone <-> maximized = Ok VNone).
Proof.
  cbv zeta. unfold Window_is_minimized, Window_is_restored, Window_is_maximized, bind.
  destruct (Window__get self "MinMax" w) as [[v|e] w'].
  - destruct (is_VNone v); cbn [negb fst ret].
    + repeat split; try tauto; intros [E _]; discriminate E.
    + repeat split; try (intros E; discriminate E);
        intros [E1 E2]; injection E1 as E1; injection E2 as E2;
        pose proof (eq_int_unique v _ _ E1 E2) as Habs; discriminate Habs.
  - cbn. repeat split; try (intros E; discriminate E); intros [E _]; discriminate E.
Qed.

(** [toggle_minimized] and [toggle_maximized] do nothing more than read the
    state when the state is unknown. *)
Lemma toggle_of_unknown_state (self : WindowHandle.t) (w w' : World) :
  Window__get self "MinMax" w = (Ok VNone, w') ->
  Window_toggle_minimized self w = (Ok VNone, w') /\
  Window_toggle_maximized self w = (Ok VNone, w').
Proof.
  intros E.
  unfold Window_toggle_minimized, Window_toggle_maximized, Window_is_minimized,
    Window_is_maximized, bind.
  now rewrite E.
Qed.

End MinMaxFacts.

Section OrderFacts.
Context `{Backend} `{Interp}.
Hypothesis Hq : configures_quietly.

Lemma ahk_call_quiet (c : string) (a : list PyVal) (w : World) :
  existsb (String.eqb c) config_commands = true ->
  exists v s',
    ahk_call c a w = (Ok v, {| ahk := s'; calls := calls w ++ [sent c a]; store := store w |}).
Proof.
  intros Hc. destruct (Hq c a (ahk w) Hc) as (v & s' & E).
  exists v, s'. unfold ahk_call, sent. now rewrite E.
Qed.

Lemma _set_title_match_mode_sends (m : tri string) (w : World) :
  in_modes m TITLE_MATCH_MODES = true ->
  exists s',
    _set_title_match_mode m w =
    (Ok tt, {| ahk := s'; calls := calls w ++ [sent "SetTitleMatchMode" [title_mode_arg m]];
               store := store w |}).
Proof.
  intros Hm. destruct m as [| |s]; try discriminate Hm.
  cbn in Hm. rewrite !orb_true_iff in Hm.
  destruct Hm as [E|[E|[E|[E|E]]]]; try discriminate E;
    apply String.eqb_eq in E; subst s; cbn [_set_title_match_mode title_mode_arg];
    match goal with
    | |- context [ahk_call ?c ?a] =>
        destruct (ahk_call_quiet c a w eq_refl) as (v & s' & E)
    end;
    exists s'; unfold bind; now rewrite E.
Qed.

Lemma set_delay_sends (f : settings.field) (c : string) (ms : Z) (w : World) :
  existsb (String.eqb c) config_commands = true ->
  delay_is f ms w ->
  exists w',
    (let* d := read_setting f in
     let* ms := lift_outcome (settings.optional_ms d) in
     ahk_call c [VInt ms] ;; ret tt) w = (Ok tt, w') /\
    calls w' = calls w ++ [sent c [VInt ms]].
Proof.
  intros Hc (S & Ha & Hms).
  destruct (read_setting_ok f S w Ha) as (w1 & E1 & A1 & C1 & S1).
  destruct (ahk_call_quiet c [VInt ms] w1 Hc) as (v & s' & E2).
  eexists. split.
  - unfold bind at 1. rewrite E1. unfold lift_outcome at 1.
    unfold bind at 1. rewrite Hms.
    unfold bind. rewrite E2. reflexivity.
  - cbn. now rewrite C1.
Qed.

Lemma delay_is_after (f : settings.field) (ms : Z) (w w' : World) :
  store w' = store w -> delay_is f ms w -> delay_is f ms w'.
Proof. intros E (S & Ha & Hms). exists S. now rewrite E. Qed.

(** X7: the commands of [Windows._call], in the order they are sent when
    AutoHotkey accepts every configuration command: the
    visibility of hidden windows, the detection of hidden text if the
    filter constrains the text, the title match mode, the text match
    speed, the window delay if asked for, and then the command. *)
Theorem Windows__call_sends_in_order (F : Windows) (c : string) (a : list PyVal) (sd : bool)
    (ms : Z) (w : World) :
  valid_modes F ->
  has_none F = false ->
  (sd = true -> delay_is settings.f_win_delay ms w) ->
  calls (snd (Windows__call F c a sd w)) =
  calls w ++ filter_setup F ++ (if sd then [sent "SetWinDelay" [VInt ms]] else []) ++
  [sent c a].
Proof.
  intros [Htm Hxm] Hn Hd. unfold Windows__call. rewrite Hn.
  destruct (ahk_call_quiet "DetectHiddenWindows" [on_off (hidden_windows F)] w eq_refl)
    as (v1 & s1 & E1).
  unfold bind at 1. rewrite E1.
  set (w1 := {| ahk := s1; calls := _; store := store w |}).
  set (texts := negb (is_unset (text F)) || negb (is_unset (exclude_text F))).
  assert (exists w2,
    (if texts then ahk_call "DetectHiddenText" [on_off (hidden_text F)] ;; ret tt
     else ret tt) w1 = (Ok tt, w2) /\
    store w2 = store w /\
    calls w2 = calls w1 ++
               (if texts then [sent "DetectHiddenText" [on_off (hidden_text F)]] else []))
    as (w2 & E2 & S2 & C2).
  { destruct texts.
    - destruct (ahk_call_quiet "DetectHiddenText" [on_off (hidden_text F)] w1 eq_refl)
        as (v2 & s2 & E2).
      eexists. split; [unfold bind; rewrite E2; reflexivity|]. now split.
    - exists w1. split; [reflexivity|]. split; [reflexivity|]. now rewrite app_nil_r. }
  unfold bind at 1. rewrite E2.
  destruct (_set_title_match_mode_sends (title_mode F) w2 Htm) as (s3 & E3).
  unfold bind at 1. rewrite E3.
  set (w3 := {| ahk := s3; calls := _; store := store w2 |}).
  assert (exists v4 s4,
    (if String.eqb (text_mode F) "fast" then ahk_call "SetTitleMatchMode" [VStr "fast"]
     else if String.eqb (text_mode F) "slow" then ahk_call "SetTitleMatchMode" [VStr "slow"]
     else raise (ValueError (VStr (text_mode F)) "is not a valid text match mode")) w3 =
    (Ok v4, {| ahk := s4;
               calls := calls w3 ++ [sent "SetTitleMatchMode" [VStr (text_mode F)]];
               store := store w3 |})) as (v4 & s4 & E4).
  { cbn in Hxm. rewrite orb_false_r in Hxm.
    destruct (String.eqb_spec (text_mode F) "fast") as [Ef|_].
    - rewrite Ef. apply ahk_call_quiet. reflexivity.
    - cbn in Hxm. rewrite Hxm. apply String.eqb_eq in Hxm. rewrite Hxm.
      apply ahk_call_quiet. reflexivity. }
  unfold bind at 1. rewrite E4.
  set (w4 := {| ahk := s4; calls := _; store := store w3 |}).
  assert (Hsetup : calls w4 = calls w ++ filter_setup F).
  { unfold w4, w3. cbn [calls]. rewrite C2. unfold w1. cbn [calls].
    unfold filter_setup. fold texts. now rewrite <- !app_assoc. }
  destruct sd.
  - assert (Hd4 : delay_is settings.f_win_delay ms w4).
    { apply (delay_is_after _ _ w); [|now apply Hd]. unfold w4, w3. cbn. exact S2. }
    destruct (set_delay_sends settings.f_win_delay "SetWinDelay" ms w4 eq_refl Hd4)
      as (w5 & E5 & C5).
    unfold set_win_delay. unfold bind at 1. rewrite E5.
    unfold ahk_call. cbn [snd calls]. rewrite C5, Hsetup.
    now rewrite <- !app_assoc.
  - unfold ret at 1. unfold bind at 1.
    unfold ahk_call. cbn [snd calls]. rewrite Hsetup.
    now rewrite <- !app_assoc.
Qed.

(** X8: the commands of [WindowHandle._call], in the order they are sent
    when AutoHotkey accepts every configuration command: the visibility of hidden
    windows, the title match mode if one is given, the delay of the class
    of the handle if asked for ([win_delay] for a window, [control_delay]
    for a control), and then the command. *)
Theorem WindowHandle__call_sends_in_order (self : WindowHandle.t) (c : string)
    (a : list PyVal) (hw : bool) (tm : tri string) (sd : bool) (ms : Z) (w : World) :
  WindowHandle.id self <> 0 ->
  (tm = PyNone \/ in_modes tm TITLE_MATCH_MODES = true) ->
  (sd = true -> delay_is (delay_field (WindowHandle.cls self)) ms w) ->
  calls (snd (WindowHandle__call self c a hw tm sd w)) =
  calls w ++ handle_setup hw tm ++
  (if sd then [sent (delay_command (WindowHandle.cls self)) [VInt ms]] else []) ++
  [sent c a].
Proof.
  intros Hid Htm Hd. unfold WindowHandle__call.
  replace (WindowHandle.id self =? 0) with false by (symmetry; now apply Z.eqb_neq).
  destruct (ahk_call_quiet "DetectHiddenWindows" [on_off hw] w eq_refl) as (v1 & s1 & E1).
  unfold bind at 1. rewrite E1.
  set (w1 := {| ahk := s1; calls := _; store := store w |}).
  assert (exists w2,
    (if negb (is_none tm) then _set_title_match_mode tm else ret tt) w1 = (Ok tt, w2) /\
    store w2 = store w /\
    calls w2 = calls w ++ handle_setup hw tm)
    as (w2 & E2 & S2 & C2).
  { unfold handle_setup. destruct Htm as [->|Hm].
    - exists w1. split; [reflexivity|]. split; [reflexivity|].
      cbn. rewrite ?app_nil_r. reflexivity.
    - destruct (_set_title_match_mode_sends tm w1 Hm) as (s2 & E2).
      assert (En : is_none tm = false) by (destruct tm; [reflexivity|discriminate Hm|reflexivity]).
      rewrite En. cbn [negb].
      eexists. split; [exact E2|]. split; [reflexivity|].
      cbn. now rewrite <- app_assoc. }
  unfold bind at 1. rewrite E2.
  destruct sd.
  - assert (Hd2 : delay_is (delay_field (WindowHandle.cls self)) ms w2)
      by (apply (delay_is_after _ _ w); [exact S2|now apply Hd]).
    unfold self__set_delay, set_win_delay, set_control_delay.
    destruct (WindowHandle.cls self); cbn [delay_field delay_command] in *.
    + destruct (set_delay_sends settings.f_win_delay "SetWinDelay" ms w2 eq_refl Hd2)
        as (w3 & E3 & C3).
      unfold bind at 1. rewrite E3.
      unfold ahk_call. cbn [snd calls]. rewrite C3, C2. now rewrite <- !app_assoc.
    + destruct (set_delay_sends settings.f_control_delay "SetControlDelay" ms w2 eq_refl Hd2)
        as (w3 & E3 & C3).
      unfold bind at 1. rewrite E3.
      unfold ahk_call. cbn [snd calls]. rewrite C3, C2. now rewrite <- !app_assoc.
  - unfold ret at 1. unfold bind at 1.
    unfold ahk_call. cbn [snd calls]. rewrite C2. now rewrite <- !app_assoc.
Qed.

End OrderFacts.

Section ErrorFacts.
Context `{Backend}.

(** [Control._call] at any depth is [WindowHandle._call] unless that raises
    an error with code 1. *)
Lemma Control__call_at_relays (d : nat) (self : WindowHandle.t) (c : string)
    (a : list PyVal) (hw : bool) (tm : tri string) (sd : bool) (w : World) :
  (forall m, fst (WindowHandle__call self c a hw tm sd w) = Raise (Error m) ->
             eq_int m 1 = false) ->
  Control__call_at d self c a hw tm sd w = WindowHandle__call self c a hw tm sd w.
Proof.
  intros Hm. destruct d; cbn [Control__call_at]; unfold try_except;
    destruct (WindowHandle__call self c a hw tm sd w) as [[v|e] w'];
    try reflexivity; destruct e; try reflexivity;
    now rewrite (Hm message eq_refl).
Qed.

Lemma Control__call_at_absorbs (d : nat) (self : WindowHandle.t) (c : string)
    (a : list PyVal) (hw : bool) (tm : tri string) (sd : bool) (w : World)
    (m : PyVal) (w1 : World) (v : PyVal) (w2 : World) :
  WindowHandle__call self c a hw tm sd w = (Raise (Error m), w1) ->
  eq_int m 1 = true ->
  WindowHandle__call self "WinExist" (WindowHandle__include self) true PyNone false w1 =
    (Ok v, w2) ->
  Control__call_at (S d) self c a hw tm sd w =
    (if truthy v then Raise (Error m) else Ok VNone, w2).
Proof.
  intros E Hm Ex. cbn [Control__call_at]. unfold try_except at 1. rewrite E, Hm.
  unfold bind.
  rewrite (Control__call_at_relays d self "WinExist");
    [|intros m' Em'; rewrite Ex in Em'; discriminate Em'].
  rewrite Ex. now destruct (truthy v).
Qed.

(** X9: [Control._call] passes on every result of the command except an error
    with code 1.  After such an error it asks whether the control exists:
    if not, the result is [None]; if so, the error is raised as it was. *)
Theorem Control__call_absorbs_code_1_of_a_missing_control (self : WindowHandle.t)
    (c : string) (a : list PyVal) (hw : bool) (tm : tri string) (sd : bool) (w : World) :
  ((forall m, fst (WindowHandle__call self c a hw tm sd w) = Raise (Error m) ->
              eq_int m 1 = false) ->
   Control__call self c a hw tm sd w = WindowHandle__call self c a hw tm sd w) /\
  (forall m w1 v w2,
      WindowHandle__call self c a hw tm sd w = (Raise (Error m), w1) ->
      eq_int m 1 = true ->
      WindowHandle__call self "WinExist" (WindowHandle__include self) true PyNone false w1 =
        (Ok v, w2) ->
      Control__call self c a hw tm sd w =
        (if truthy v then Raise (Error m) else Ok VNone, w2)).
Proof.
  split.
  - apply Control__call_at_relays.
  - intros m w1 v w2 E Hm Ex. unfold Control__call.
    change recursion_limit with (S 299). now apply (Control__call_at_absorbs _ _ _ _ _ _ _ _ _ w1).
Qed.

(** X10: [get_control] and [get_focused_control] never raise an error with code
    1, and on a handle whose [id] is 0 they return [Control(0)] without
    sending anything. *)
Theorem get_control_never_raises_code_1 (self : WindowHandle.t) (class_or_text : PyVal)
    (match_ : tri string) (w : World) :
  (forall m, fst (Window_get_control self class_or_text match_ w) = Raise (Error m) ->
             eq_int m 1 = false) /\
  (forall m, fst (Window_get_focused_control self w) = Raise (Error m) ->
             eq_int m 1 = false) /\
  (WindowHandle.id self = 0 ->
   Window_get_control self class_or_text match_ w = (Ok (Control 0), w) /\
   Window_get_focused_control self w = (Ok (Control 0), w)).
Proof.
  assert (Hgc : forall cot mt w0 m,
             fst (Window_get_control self cot mt w0) = Raise (Error m) -> eq_int m 1 = false).
  { intros cot mt w0 m. unfold Window_get_control, except_Error, try_except, bind.
    destruct (self__call self "ControlGet" _ true mt false w0) as [[v|e] w'].
    - destruct (is_VNone v); [discriminate|].
      destruct v; cbn; discriminate.
    - destruct e; cbn; try discriminate.
      destruct (eq_int message 1) eqn:Em; cbn; [discriminate|].
      intros E. injection E as <-. exact Em. }
  split; [apply Hgc|]. split.
  - intros m. unfold Window_get_focused_control, except_Error, try_except.
    unfold bind at 1. unfold bind at 1.
    destruct (self__call self "ControlGetFocus" _ true PyNone false w) as [[v|e] w'].
    + destruct (is_VNone v); cbn [ret]; [discriminate|]. apply Hgc.
    + destruct e; cbn; try discriminate.
      destruct (eq_int message 1) eqn:Em; cbn; [discriminate|].
      intros E. injection E as <-. exact Em.
  - intros Hid. destruct self as [k n]. cbn in Hid. subst n.
    destruct k; split; reflexivity.
Qed.

(** X11: [send_message] passes on the answer and every error of the command
    except the error "FAIL".  After a "FAIL" it asks whether the window
    exists: if not, the result is [None]; if so, an error that says what
    went wrong is raised. *)
Theorem send_message_tells_a_missing_window_from_a_failure (self : WindowHandle.t)
    (msg w_param l_param timeout : Z) (w : World) :
  let sends :=
    self__call self "SendMessage"
      ([VInt msg; VInt w_param; VInt l_param; VStr ""] ++ WindowHandle__include self ++
       [VStr ""; VStr ""; VInt (timeout * 1000)]) true PyNone false in
  let send_message :=
    BaseWindow_send_message self (VInt msg) (VInt w_param) (VInt l_param) (VInt timeout) in
  (forall v w1, sends w = (Ok v, w1) -> send_message w = (Ok v, w1)) /\
  (forall e w1, sends w = (Raise e, w1) ->
                (forall m, e = Error m -> eq_str m "FAIL" = false) ->
                send_message w = (Raise e, w1)) /\
  (forall m w1 w2 still_there,
      sends w = (Raise (Error m), w1) ->
      eq_str m "FAIL" = true ->
      BaseWindow_exists self w1 = (Ok still_there, w2) ->
      send_message w =
        (if still_there
         then Raise (Error (VStr "there was a problem sending message or response timed out"))
         else Ok VNone, w2)).
Proof.
  cbv zeta. unfold BaseWindow_send_message, except_Error, try_except, lift_outcome.
  cbn [py_int int_times_1000]. unfold bind at 1 2 3 4.
  repeat split.
  - intros v w1 E. unfold bind. now rewrite E.
  - intros e w1 E He. unfold bind at 1. unfold bind at 1. unfold bind at 1. unfold bind at 1.
    rewrite E. destruct e; try reflexivity.
    now rewrite (He message eq_refl).
  - intros m w1 w2 st E Hm Ex.
    unfold bind at 1. unfold bind at 1. unfold bind at 1. unfold bind at 1.
    rewrite E, Hm. unfold bind. rewrite Ex. now destruct st.
Qed.

Lemma between_int (lo hi z : Z) :
  between lo hi (VInt z) = Ok ((lo <=? z) && (z <=? hi)).
Proof.
  unfold between. cbn. unfold Z.leb.
  destruct (lo ?= z), (z ?= hi); reflexivity.
Qed.

(** X12: assigning an int outside 0..255 to [opacity] raises [ValueError]
    before the handle is looked at, so also on the handle whose [id] is 0,
    and sends nothing; an int within the range is set as it is, and [None]
    turns the transparency off. *)
Theorem opacity_is_checked_before_the_handle (self : WindowHandle.t) (z : Z) (w : World) :
  Window_set_opacity self (VInt z) w =
    (if (0 <=? z) && (z <=? 255)
     then (BaseWindow__set self "Transparent" (VInt z) ;; ret VNone) w
     else (Raise (ValueError VNone "opacity value must be between 0 and 255"), w)) /\
  Window_set_opacity self VNone w =
    (BaseWindow__set self "Transparent" (VStr "Off") ;; ret VNone) w.
Proof.
  split; [|reflexivity].
  unfold Window_set_opacity, lift_outcome. cbn [is_VNone py_int].
  unfold bind at 1. unfold bind at 1. rewrite between_int.
  destruct ((0 <=? z) && (z <=? 255)); reflexivity.
Qed.

(** X13: the list getters on the control whose [id] is 0: [get_list_items]
    returns [None] without sending anything when no column or a column
    from 0 on is asked for, and raises [TypeError] for a negative column
    (the sum of the column count [None] and the column); [list_items] and
    the column count are [None]. *)
Theorem list_getters_on_the_invalid_control (selected focused : bool) (column : option Z)
    (w : World) :
  Control_get_list_items (Control 0) selected focused column w =
    (match column with
     | Some c => if c <? 0 then Raise (TypeError "unsupported operand type(s) for +")
                 else Ok ItemsNone
     | None => Ok ItemsNone
     end, w) /\
  Control_list_items (Control 0) w = (Ok ItemsNone, w) /\
  Control_list_view_column_count (Control 0) w = (Ok VNone, w).
Proof.
  split; [|split; reflexivity].
  unfold Control_get_list_items. destruct column as [c|]; [|destruct selected, focused; reflexivity].
  unfold bind at 1. destruct (c <? 0); [reflexivity|].
  unfold ret at 1. unfold bind at 1. unfold col_option, lift_outcome.
  cbn [py_add_int as_num]. destruct selected, focused; reflexivity.
Qed.

End ErrorFacts.

Section RangeFacts.
Context `{Backend}.

Lemma within_true (c1 c2 : option comparison) :
  match c1 with
  | Some Lt | Some Eq => match c2 with Some Lt | Some Eq => true | _ => false end
  | _ => false
  end = true ->
  (c1 = Some Lt \/ c1 = Some Eq) /\ (c2 = Some Lt \/ c2 = Some Eq).
Proof. destruct c1 as [[]|], c2 as [[]|]; intros E; try discriminate E; auto. Qed.

Lemma compare_le (a b : Z) : Some (a ?= b) = Some Lt \/ Some (a ?= b) = Some Eq -> a <= b.
Proof.
  intros [E|E]; injection E as E.
  - change (a < b) in E. lia.
  - apply Z.compare_eq in E. lia.
Qed.

Lemma compare_opp_le (a b : Z) :
  option_map CompOpp (Some (a ?= b)) = Some Lt \/
  option_map CompOpp (Some (a ?= b)) = Some Eq -> b <= a.
Proof.
  destruct (Z.compare_spec a b) as [E|E|E]; cbn [option_map CompOpp]; intros [D|D];
    try discriminate D; lia.
Qed.

(** A float between two ints, the lower of which is not negative,
    truncates to an int between them. *)
Lemma int_of_float_within (lo hi : Z) (f : float) :
  0 <= lo ->
  between lo hi (VFloat f) = Ok true ->
  exists z, int_of_float f = Ok z /\ lo <= z <= hi.
Proof.
  intros Hlo E. unfold between in E. cbn [as_num num_compare] in E.
  injection E as E. apply within_true in E. destruct E as [E1 E2].
  unfold cmp_Z_float in E1, E2. unfold int_of_float.
  destruct (Prim2SF f) as [s|s| |s m e].
  - apply compare_le in E1. apply compare_opp_le in E2. exists 0. split; [reflexivity|lia].
  - destruct s; cbn in E1, E2; destruct E1 as [D|D]; try discriminate D;
      destruct E2 as [D2|D2]; discriminate D2.
  - destruct E1 as [D|D]; discriminate D.
  - destruct (0 <=? e) eqn:He.
    + apply Z.leb_le in He. apply compare_le in E1. apply compare_opp_le in E2.
      assert (Hp : 0 < 2 ^ e) by (apply Z.pow_pos_nonneg; lia).
      destruct s.
      * exfalso. assert (Z.neg m * 2 ^ e < 0) by nia. lia.
      * eexists. split; [reflexivity|]. lia.
    + apply Z.leb_gt in He. apply compare_le in E1. apply compare_opp_le in E2.
      assert (Hp : 0 < 2 ^ (- e)) by (apply Z.pow_pos_nonneg; lia).
      destruct s.
      * exfalso. assert (0 <= lo * 2 ^ (- e)) by nia. lia.
      * eexists. split; [reflexivity|]. split.
        -- apply Z.div_le_lower_bound; [exact Hp|lia].
        -- apply Z.div_le_upper_bound; [exact Hp|lia].
Qed.

(** A value that passes the test [lo <= v <= hi] converts to an int
    between the bounds. *)
Lemma between_py_int (lo hi : Z) (v : PyVal) :
  0 <= lo ->
  between lo hi v = Ok true ->
  exists z, py_int v = Ok z /\ lo <= z <= hi.
Proof.
  intros Hlo E. destruct v as [| |b|z|f|s|items]; try discriminate E.
  - change (between lo hi (VBool b)) with (between lo hi (VInt (if b then 1 else 0))) in E.
    rewrite between_int in E. injection E as E.
    apply andb_true_iff in E. destruct E as [E1 E2].
    apply Z.leb_le in E1. apply Z.leb_le in E2.
    eexists. split; [reflexivity|lia].
  - rewrite between_int in E. injection E as E.
    apply andb_true_iff in E. destruct E as [E1 E2].
    apply Z.leb_le in E1. apply Z.leb_le in E2.
    exists z. split; [reflexivity|lia].
  - now apply int_of_float_within.
Qed.

(** X14: whatever they are given, [send_level] and the setter of [opacity]
    either raise before anything is sent, or send a whole number within
    their range: a level from 0 to 100, an opacity from 0 to 255 (or
    "Off" for [None]). *)
Theorem range_checked_setters_send_only_values_in_range (self : WindowHandle.t)
    (value : PyVal) (w : World) :
  ((exists e, keys.send_level value w = (Raise e, w)) \/
   (exists z, 0 <= z <= 100 /\
      keys.send_level value w = (ahk_call "SendLevel" [VInt z] ;; ret tt) w)) /\
  ((exists e, Window_set_opacity self value w = (Raise e, w)) \/
   (exists ahk_value,
      (ahk_value = VStr "Off" \/ exists z, 0 <= z <= 255 /\ ahk_value = VInt z) /\
      Window_set_opacity self value w =
        (BaseWindow__set self "Transparent" ahk_value ;; ret VNone) w)).
Proof.
  split.
  - unfold keys.send_level, lift_outcome. unfold bind at 1 4.
    destruct (between 0 100 value) as [[|]|e] eqn:E.
    + right. destruct (between_py_int 0 100 value ltac:(lia) E) as (z & Ez & Hz).
      exists z. split; [exact Hz|]. cbn [negb]. unfold bind at 1. now rewrite Ez.
    + left. eexists. reflexivity.
    + left. eexists. reflexivity.
  - unfold Window_set_opacity.
    destruct (is_VNone value) eqn:En.
    + right. exists (VStr "Off"). split; [now left|]. reflexivity.
    + unfold lift_outcome. unfold bind at 1. unfold bind at 1.
      destruct (between 0 255 value) as [[|]|e] eqn:E.
      * right. destruct (between_py_int 0 255 value ltac:(lia) E) as (z & Ez & Hz).
        exists (VInt z). split; [right; now exists z|].
        cbn [negb]. unfold bind at 1. now rewrite Ez.
      * left. eexists. reflexivity.
      * left. eexists. reflexivity.
Qed.

End RangeFacts.

Section HotkeyFacts.
Context `{Backend}.
Import keys.

Lemma concat_head_nonempty (c : ascii) (s : string) (rest : list string) :
  String.eqb (String.concat "" (String c s :: rest)) "" = false.
Proof. destruct rest; reflexivity. Qed.

Lemma hotkey_options_head (buffer : PyVal) (p t i : option Z) (x : string)
    (rest : list string) :
  hotkey_options buffer p t i = x :: rest -> exists c s, x = String c s.
Proof.
  unfold hotkey_options.
  destruct buffer as [| |[|]| | | |], p, t, i; cbn [app String.append];
    intros E; try discriminate E; injection E as <- _; eauto.
Qed.

(** X15: [Hotkey.set_options] sends one "Hotkey" command with the options it
    was given, joined in the order buffer, priority, threads, input level,
    and sends nothing exactly when it was given none: [buffer] is neither
    [True] nor [False] and the three numbers are [None]. *)
Theorem set_options_sends_iff_an_option_is_given (self : Hotkey) (buffer : PyVal)
    (priority max_threads input_level : option Z) (w : World) :
  Hotkey_set_options self buffer priority max_threads input_level w =
    match hotkey_options buffer priority max_threads input_level with
    | [] => (Ok tt, w)
    | options =>
        (ahk_call "Hotkey" [VStr (key_name self); VStr ""; VStr (String.concat "" options)] ;;
         ret tt) w
    end /\
  (hotkey_options buffer priority max_threads input_level = [] <->
   (forall b, buffer <> VBool b) /\ priority = None /\ max_threads = None /\
   input_level = None).
Proof.
  split.
  - unfold Hotkey_set_options.
    destruct (hotkey_options buffer priority max_threads input_level) as [|x rest] eqn:E.
    + reflexivity.
    + destruct (hotkey_options_head _ _ _ _ _ _ E) as (c & s & ->).
      now rewrite concat_head_nonempty.
  - split.
    + unfold hotkey_options.
      destruct buffer as [| |[|]| | | |], priority, max_threads, input_level;
        cbn [app String.append]; intros E; try discriminate E;
        repeat split; intros b Eb; discriminate Eb.
    + intros (Hb & -> & -> & ->). unfold hotkey_options.
      destruct buffer as [| |b| | | |]; try reflexivity.
      now destruct (Hb b).
Qed.

End HotkeyFacts.

Section IterFacts.
Context `{Backend} `{Interp}.

Lemma windows_from_ints (ids : list Z) (w : World) :
  windows_from (map VInt ids) w = (Ok (map Window ids), w).
Proof.
  induction ids as [|z ids IH]; [reflexivity|].
  cbn [map windows_from Window_from]. unfold bind at 1. unfold ret at 1.
  unfold bind at 1. now rewrite IH.
Qed.

(** X16: iterating over a filter yields one [Window] for each id of the
    answer to "WinGet, List", in the order of the answer, and sends
    nothing further; an answer of [None] yields no window. *)
Theorem iter_yields_the_answered_ids_in_order (self : Windows) (w : World) :
  let answer :=
    Windows__call self "WinGet" (VStr "List" :: strs (Windows__query self)) false w in
  (forall items ids w',
      answer = (Ok (VDict items), w') ->
      map snd items = map VInt ids ->
      Windows___iter__ self w = (Ok (map Window ids), w')) /\
  (forall w', answer = (Ok VNone, w') -> Windows___iter__ self w = (Ok [], w')).
Proof.
  cbv zeta. split.
  - intros items ids w' E Hids. unfold Windows___iter__, bind. rewrite E, Hids.
    apply windows_from_ints.
  - intros w' E. unfold Windows___iter__, bind. now rewrite E.
Qed.

End IterFacts.

Section DefaultsFacts.
Import settings.

(** X17: in a context where no settings were set, [get_settings] returns a new
    object that is a copy of the defaults and makes it the current one:
    later calls return the same object, and assigning to its fields
    leaves [default_settings] as it was. *)
Theorem get_settings_copies_the_defaults_once (st : Store) (d : Settings) :
  current st = None ->
  objs st !! default_settings = Some d ->
  exists r st',
    get_settings st = (Ok r, st') /\
    r <> default_settings /\
    objs st !! r = None /\
    objs st' !! r = Some d /\
    get_settings st' = (Ok r, st') /\
    (forall f v st'',
        store_attr r f v st' = (Ok tt, st'') ->
        objs st'' !! r = Some (setattr d f v) /\
        objs st'' !! default_settings = Some d /\
        get_settings st'' = (Ok r, st'')).
Proof.
  intros Hc Hd.
  exists (length (objs st)),
    {| objs := objs st ++ [d]; current := Some (length (objs st)) |}.
  assert (Hne : length (objs st) <> default_settings).
  { apply lookup_lt_Some in Hd. unfold default_settings in *. lia. }
  split; [now apply get_settings_unset|].
  split; [exact Hne|].
  split; [apply lookup_ge_None_2; lia|].
  split; [apply lookup_snoc_new|].
  split; [reflexivity|].
  intros f v st'' E. unfold store_attr, bind in E.
  rewrite (deref_some _ _ d) in E by apply lookup_snoc_new.
  injection E as <-. cbn [objs current].
  split; [|split].
  - apply list_lookup_insert_eq. rewrite length_app. cbn. lia.
  - rewrite list_lookup_insert_ne by exact Hne. now apply lookup_snoc_old.
  - reflexivity.
Qed.

End DefaultsFacts.

Section DelayFacts.
Import settings.

(** The product of two floats that are not negative is not negative. *)
Lemma SFmul_sign (m1 m2 : positive) (e1 e2 : Z) :
  match SFmul prec emax (S754_finite false m1 e1) (S754_finite false m2 e2) with
  | S754_finite s _ _ => s = false
  | _ => True
  end.
Proof.
  unfold SFmul, binary_round_aux. cbn [xorb].
  destruct (shr_fexp _ _ _ _ _) as [mrs' e'].
  destruct (shr_fexp _ _ _ _ _) as [mrs'' e''].
  destruct (shr_m mrs''); try exact I.
  destruct (e'' <=? emax - prec); [reflexivity|exact I].
Qed.

Lemma int_of_float_times_1000 (f : float) (ms : Z) :
  PrimFloat.ltb f 0%float = false ->
  int_of_float (PrimFloat.mul f 1000%float) = Ok ms ->
  0 <= ms.
Proof.
  rewrite ltb_spec. unfold int_of_float. rewrite mul_spec.
  change (Prim2SF 0%float) with (S754_zero false).
  set (k := Prim2SF 1000%float). vm_compute in k. subst k.
  unfold SF64mul.
  destruct (Prim2SF f) as [s|s| |s m e].
  - intros _ E. cbn in E. injection E as <-. lia.
  - intros _ E. cbn in E. discriminate E.
  - intros _ E. cbn in E. discriminate E.
  - intros Hs. destruct s; [discriminate Hs|]. clear Hs.
    match goal with
    | |- context [SFmul prec emax (S754_finite false m e) (S754_finite false ?m2 ?e2)] =>
        pose proof (SFmul_sign m m2 e e2) as Hsign;
        destruct (SFmul prec emax (S754_finite false m e) (S754_finite false m2 e2))
          as [s'|s'| |s' m' e']
    end; intros E; try discriminate E.
    + injection E as <-. lia.
    + subst s'. injection E as <-.
      destruct (0 <=? e') eqn:He.
      * apply Z.leb_le in He.
        assert (0 < 2 ^ e') by (now apply Z.pow_pos_nonneg). nia.
      * apply Z.leb_gt in He. apply Z.div_pos; [lia|].
        apply Z.pow_pos_nonneg; lia.
Qed.

(** X18: [optional_ms] returns -1 or a number of milliseconds that is not
    negative, whatever the delay it converts; for an int the result is -1
    if the delay is negative and a thousand times the delay otherwise. *)
Theorem optional_ms_is_minus_one_or_not_negative (value : PyVal) (ms : Z) :
  optional_ms value = Ok ms ->
  (ms = -1 \/ 0 <= ms) /\
  (forall z, value = VInt z -> ms = if z <? 0 then -1 else z * 1000).
Proof.
  intros E. split.
  - destruct value as [| |b|z|f|s|items]; cbn [optional_ms] in E; try discriminate E.
    + injection E as <-. now left.
    + injection E as <-. right. destruct b; lia.
    + destruct (z <? 0) eqn:Hz; injection E as <-; [now left|].
      apply Z.ltb_ge in Hz. right. lia.
    + destruct (PrimFloat.ltb f 0%float) eqn:Hf; [injection E as <-; now left|].
      right. now apply (int_of_float_times_1000 f).
  - intros z ->. cbn [optional_ms] in E. destruct (z <? 0); now injection E as <-.
Qed.

End DelayFacts.

Section Examples.

Lemma visible_and_enabled_are_single_bits_witness :
  fst (BaseWindow_is_visible (Window 7) desk.start) = Ok (VBool true) /\
  fst (BaseWindow_is_enabled (Window 7) desk.start) = Ok (VBool true).
Proof.
  destruct (visible_and_enabled_are_single_bits (H := desk.backend) (Window 7) WS_VISIBLE
              desk.start (snd (BaseWindow_style (Window 7) desk.start)) eq_refl) as [E1 E2].
  rewrite E1, E2. split; reflexivity.
Defined.

Lemma filter_twice_is_filter_once_witness :
  and_then (Windows_filter windows (with_title (Val "Untitled")))
    (fun F1 => Windows_filter F1 (with_class_name (Val "Notepad"))) =
  Ok notepad_at_once.
Proof.
  rewrite (proj1 (filter_twice_is_filter_once windows (with_title (Val "Untitled"))
                    (with_class_name (Val "Notepad")) eq_refl)).
  reflexivity.
Defined.

Lemma Windows__call_sends_in_order_witness :
  calls (snd (Windows__call (H := desk.backend) windows "WinMinimizeAll" [] true desk.start)) =
  [sent "DetectHiddenWindows" [VStr "Off"];
   sent "SetTitleMatchMode" [VInt 1];
   sent "SetTitleMatchMode" [VStr "fast"];
   sent "SetWinDelay" [VInt 100];
   sent "WinMinimizeAll" []].
Proof.
  rewrite (Windows__call_sends_in_order (H := desk.backend) desk_configures_quietly
             windows "WinMinimizeAll" [] true 100 desk.start
             (conj eq_refl eq_refl) eq_refl
             (fun _ => ex_intro _ settings.Settings_init (conj eq_refl eq_refl))).
  reflexivity.
Defined.

Lemma WindowHandle__call_sends_in_order_witness :
  calls (snd (WindowHandle__call (H := desk.backend) (Control 7) "ControlFocus"
                [VStr ""; VStr "ahk_id 7"; VStr ""] true PyNone true desk.start)) =
  [sent "DetectHiddenWindows" [VStr "On"];
   sent "SetControlDelay" [VInt 20];
   sent "ControlFocus" [VStr ""; VStr "ahk_id 7"; VStr ""]].
Proof.
  assert (Hn : WindowHandle.id (Control 7) <> 0) by discriminate.
  rewrite (WindowHandle__call_sends_in_order (H := desk.backend) desk_configures_quietly
             (Control 7) "ControlFocus" [VStr ""; VStr "ahk_id 7"; VStr ""] true PyNone true 20
             desk.start Hn (or_introl eq_refl)
             (fun _ => ex_intro _ settings.Settings_init (conj eq_refl eq_refl))).
  reflexivity.
Defined.

Lemma Control__call_absorbs_code_1_of_a_missing_control_witness :
  fst (Control__call (H := script.backend script.control_gone) (Control 5) "ControlGet"
         [VStr "Checked"; VStr ""; VStr ""; VStr "ahk_id 5"; VStr ""] true PyNone false
         (script.start script.control_gone)) = Ok VNone.
Proof.
  pose (w := script.start script.control_gone).
  pose (args5 := [VStr "Checked"; VStr ""; VStr ""; VStr "ahk_id 5"; VStr ""]).
  pose (w1 := snd (WindowHandle__call (Control 5) "ControlGet" args5 true PyNone false w)).
  pose (w2 := snd (WindowHandle__call (Control 5) "WinExist" (WindowHandle__include (Control 5))
                     true PyNone false w1)).
  exact (f_equal fst
           (proj2 (Control__call_absorbs_code_1_of_a_missing_control
                     (H := script.backend script.control_gone) (Control 5) "ControlGet" args5
                     true PyNone false w)
              (VInt 1) w1 (VInt 0) w2 eq_refl eq_refl eq_refl)).
Defined.

Lemma send_message_tells_a_missing_window_from_a_failure_witness :
  fst (BaseWindow_send_message (H := script.backend script.window_gone) (Window 5)
         (VInt 16) (VInt 0) (VInt 0) (VInt 5) (script.start script.window_gone)) = Ok VNone.
Proof.
  pose (w := script.start script.window_gone).
  pose (w1 := snd (self__call (Window 5) "SendMessage"
                     ([VInt 16; VInt 0; VInt 0; VStr ""] ++ WindowHandle__include (Window 5) ++
                      [VStr ""; VStr ""; VInt (5 * 1000)]) true PyNone false w)).
  pose (w2 := snd (BaseWindow_exists (Window 5) w1)).
  exact (f_equal fst
           (proj2 (proj2 (send_message_tells_a_missing_window_from_a_failure
                            (H := script.backend script.window_gone) (Window 5) 16 0 0 5 w))
              (VStr "FAIL") w1 w2 false eq_refl eq_refl eq_refl)).
Defined.

Lemma iter_yields_the_answered_ids_in_order_witness :
  fst (Windows___iter__ (H := script.backend script.two_windows) windows
         (script.start script.two_windows)) = Ok [Window 7; Window 9].
Proof.
  pose (w := script.start script.two_windows).
  exact (f_equal fst
           (proj1 (iter_yields_the_answered_ids_in_order
                     (H := script.backend script.two_windows) windows w)
              [("1", VInt 7); ("2", VInt 9)] [7; 9]
              (snd (Windows__call windows "WinGet"
                      (VStr "List" :: strs (Windows__query windows)) false w))
              eq_refl eq_refl)).
Defined.

Lemma get_settings_copies_the_defaults_once_witness :
  exists r st',
    settings.get_settings new_context = (Ok r, st') /\
    r <> settings.default_settings /\
    settings.objs st' !! r = Some settings.Settings_init.
Proof.
  destruct (get_settings_copies_the_defaults_once new_context settings.Settings_init
              eq_refl eq_refl) as (r & st' & E & Hne & _ & Hr & _).
  exists r, st'. split; [exact E|]. split; [exact Hne|exact Hr].
Defined.

Lemma optional_ms_is_minus_one_or_not_negative_witness :
  settings.optional_ms (VFloat 0.25) = Ok 250 /\ (250 = -1 \/ 0 <= 250).
Proof.
  split; [reflexivity|].
  exact (proj1 (optional_ms_is_minus_one_or_not_negative (VFloat 0.25) 250 eq_refl)).
Defined.

End Examples.

Section NeutralFacts.
Context `{Backend} `{Interp}.



End NeutralFacts.

Section ReadingFacts.

(** [int] reads a string as Python does: white space around, a sign, and
    single underscores between digits are accepted; anything else is a
    [ValueError]. *)
Example int_reads_python_spellings :
  py_int (VStr " +1_6 ") = Ok 16 /\
  py_int (VStr "-007") = Ok (-7) /\
  py_int (VStr "16") = Ok 16 /\
  py_int (VStr "1__6") =
    Raise (ValueError (VStr "1__6") "invalid literal for int() with base 10") /\
  py_int (VStr "_16") =
    Raise (ValueError (VStr "_16") "invalid literal for int() with base 10") /\
  py_int (VStr "+ 16") =
    Raise (ValueError (VStr "+ 16") "invalid literal for int() with base 10") /\
  py_int (VStr "") = Raise (ValueError (VStr "") "invalid literal for int() with base 10").
Proof. repeat split; reflexivity. Qed.

(** Where AutoHotkey moves windows as [moves_windows] says, a "0" is no
    blank: a [WinMove] with "0" for the width and the height gives the
    window no size, so the size is kept only by sending blanks. *)
Lemma zero_is_no_blank `{Backend}
    (rect_of : ahk_state -> Z -> option (Z * Z * Z * Z)) (s : ahk_state) (n x y : Z)
    (r : Z * Z * Z * Z) :
  moves_windows rect_of ->
  rect_of s n = Some r ->
  exists v s',
    run_command {| cmd := "WinMove";
                   args := WindowHandle__include (Window n) ++
                           [VInt x; VInt y; VStr "0"; VStr "0"] |} s = (Ok v, s') /\
    rect_of s' n = Some (x, y, 0, 0).
Proof.
  intros Hm Hr.
  exact (move_sets _ Hm s n r (VInt x) (VInt y) (VStr "0") (VStr "0") x y 0 0 Hr
           eq_refl eq_refl eq_refl eq_refl).
Qed.

End ReadingFacts.
